(** * The Jira adapter of tickety-tick (src/core/adapters/jira.ts)

    A shallow embedding of the adapter: the page test [isJiraPage], the
    hosting prefix [getPathPrefix], the identifier extraction
    [getSelectedIssueId], the ticket mapper [extractTicketInfo] and the
    orchestrator [scan], together with the pieces of the JavaScript runtime
    they rest on (string methods, a backtracking regular-expression matcher,
    [URLSearchParams], promises with one kind of request).

    Strings are [string]s of 8-bit characters: the components of a [URL]
    object are ASCII (the URL serialiser percent-encodes everything else), so
    one character is one UTF-16 code unit of the JavaScript string. *)

From Stdlib Require Import String Ascii List Bool Arith Lia.
Import ListNotations.

Local Open Scope list_scope.
Local Open Scope string_scope.

Set Implicit Arguments.

(** ** JavaScript strings *)

Module JsString.

(** [s.substr(n)]: the characters of [s] from index [n] on. *)
Fixpoint substr (n : nat) (s : string) : string :=
  match n, s with
  | O, _ => s
  | S k, String _ s' => substr k s'
  | S _, EmptyString => EmptyString
  end.

(** [s.startsWith(p)]. *)
Fixpoint startsWith (p s : string) : bool :=
  match p, s with
  | EmptyString, _ => true
  | String a p', String b s' => Ascii.eqb a b && startsWith p' s'
  | String _ _, EmptyString => false
  end.

(** [s.endsWith(suffix)]: some tail of [s] is [suffix]. *)
Fixpoint endsWith (s suffix : string) : bool :=
  String.eqb s suffix ||
  match s with
  | String _ s' => endsWith s' suffix
  | EmptyString => false
  end.

Definition lower (a : ascii) : ascii :=
  let n := nat_of_ascii a in
  if ((65 <=? n) && (n <=? 90))%nat then ascii_of_nat (n + 32) else a.

(** [s.toLowerCase()], on the ASCII letters. *)
Fixpoint toLowerCase (s : string) : string :=
  match s with
  | EmptyString => EmptyString
  | String a s' => String (lower a) (toLowerCase s')
  end.

(** [s.split(sep)] for a one-character separator. *)
Fixpoint split (sep : ascii) (s : string) : list string :=
  match s with
  | EmptyString => [EmptyString]
  | String a s' =>
      if Ascii.eqb a sep then EmptyString :: split sep s'
      else match split sep s' with
           | seg :: segs => String a seg :: segs
           | [] => [String a EmptyString]
           end
  end.

(** No character of [s] is [a]. *)
Fixpoint lacks (a : ascii) (s : string) : bool :=
  match s with
  | EmptyString => true
  | String b s' => negb (Ascii.eqb b a) && lacks a s'
  end.

End JsString.
Import JsString.

(** ** Regular expressions

    The fragment of the ECMAScript pattern language that the adapter's two
    patterns are written in, with the matcher as a backtracking search: the
    results of [run] are the positions at which a match of the pattern can
    end, in the order in which the backtracking matcher of the language
    tries them (greedy quantifiers, alternatives from left to right). *)

Module RegExp.

Inductive charset : Type :=
| Dot                   (* .     every character but a line terminator *)
| NoneOf (a : ascii).   (* [^a] *)

Definition mem (cs : charset) (b : ascii) : bool :=
  match cs with
  | Dot => negb (Ascii.eqb b "010" || Ascii.eqb b "013")
  | NoneOf a => negb (Ascii.eqb b a)
  end.

Inductive regex : Type :=
| Lit (l : string)       (* a run of literal characters *)
| Class (cs : charset)   (* one character of a class *)
| Seq (r1 r2 : regex)    (* r1r2 *)
| Alt (r1 r2 : regex)    (* r1|r2 *)
| Opt (r : regex)        (* (r)? *)
| Star (cs : charset)    (* cs* *)
| Plus (cs : charset)    (* cs+ *)
| Bos                    (* ^ *)
| Eos.                   (* $ *)

(** A position in the subject: its index, and the subject from there on. *)
Definition cursor : Type := (nat * string)%type.

Fixpoint star (cs : charset) (i : nat) (s : string) : list cursor :=
  match s with
  | String a s' =>
      if mem cs a then (star cs (S i) s' ++ [(i, s)])%list else [(i, s)]
  | EmptyString => [(i, s)]
  end.

Fixpoint run (r : regex) (c : cursor) : list cursor :=
  match r with
  | Lit l =>
      if startsWith l (snd c)
      then [(fst c + String.length l, substr (String.length l) (snd c))]
      else []
  | Class cs =>
      match snd c with
      | String a s' => if mem cs a then [(S (fst c), s')] else []
      | EmptyString => []
      end
  | Seq r1 r2 => flat_map (run r2) (run r1 c)
  | Alt r1 r2 => (run r1 c ++ run r2 c)%list
  | Opt r1 => (run r1 c ++ [c])%list
  | Star cs => star cs (fst c) (snd c)
  | Plus cs =>
      match snd c with
      | String a s' => if mem cs a then star cs (S (fst c)) s' else []
      | EmptyString => []
      end
  | Bos => if (fst c =? 0)%nat then [c] else []
  | Eos =>
      match snd c with
      | EmptyString => [c]
      | String _ _ => []
      end
  end.

(** [s.replace(r, repl)] for a pattern with the [g] flag, from index [i]
    of the subject on, [s] being the subject from there; [skip] counts the
    characters of [s] that still belong to the match found last.  Every
    match is replaced; after an empty match the search moves on by one
    character. *)
Fixpoint replace_from (r : regex) (repl : string) (skip i : nat) (s : string)
  {struct s} : string :=
  match skip with
  | S k =>
      match s with
      | String _ s' => replace_from r repl k (S i) s'
      | EmptyString => EmptyString
      end
  | O =>
      match run r (i, s) with
      | (j, _) :: _ =>
          match s with
          | String a s' =>
              if (j =? i)%nat
              then repl ++ String a (replace_from r repl 0 (S i) s')
              else repl ++ replace_from r repl (j - i - 1) (S i) s'
          | EmptyString => repl
          end
      | [] =>
          match s with
          | String a s' => String a (replace_from r repl 0 (S i) s')
          | EmptyString => EmptyString
          end
      end
  end.

Definition replace_all (r : regex) (repl s : string) : string :=
  replace_from r repl 0 0 s.

(** [s.replace(r, repl)] for a pattern without the [g] flag: the leftmost
    match only. *)
Fixpoint replace_first_from (r : regex) (repl : string) (i : nat) (s : string)
  : string :=
  match run r (i, s) with
  | (_, rest) :: _ => repl ++ rest
  | [] =>
      match s with
      | String a s' => String a (replace_first_from r repl (S i) s')
      | EmptyString => EmptyString
      end
  end.

Definition replace_first (r : regex) (repl s : string) : string :=
  replace_first_from r repl 0 s.

(** [r.test(s)] from index [i] on: the pattern matches somewhere. *)
Fixpoint test_from (r : regex) (i : nat) (s : string) : bool :=
  match run r (i, s) with
  | _ :: _ => true
  | [] =>
      match s with
      | String _ s' => test_from r (S i) s'
      | EmptyString => false
      end
  end.

Definition test (r : regex) (s : string) : bool := test_from r 0 s.

(** Every character of [s] is in the class. *)
Fixpoint all_mem (cs : charset) (s : string) : bool :=
  match s with
  | EmptyString => true
  | String a s' => mem cs a && all_mem cs s'
  end.

(** What [run] computes, read as a relation: a match of [r] that starts
    at the cursor [c] can end at the cursor [c']. *)
Fixpoint matches (r : regex) (c c' : cursor) : Prop :=
  match r with
  | Lit l => snd c = l ++ snd c' /\ fst c' = fst c + String.length l
  | Class cs =>
      exists a, snd c = String a (snd c') /\ mem cs a = true /\
                fst c' = S (fst c)
  | Seq r1 r2 => exists m, matches r1 c m /\ matches r2 m c'
  | Alt r1 r2 => matches r1 c c' \/ matches r2 c c'
  | Opt r1 => matches r1 c c' \/ c' = c
  | Star cs =>
      exists m, snd c = m ++ snd c' /\ all_mem cs m = true /\
                fst c' = fst c + String.length m
  | Plus cs =>
      exists m, m <> "" /\ snd c = m ++ snd c' /\ all_mem cs m = true /\
                fst c' = fst c + String.length m
  | Bos => c' = c /\ fst c = 0
  | Eos => c' = c /\ snd c = ""
  end.

End RegExp.
Import RegExp.

Declare Scope regex_scope.
Delimit Scope regex_scope with re.
Bind Scope regex_scope with regex.
Notation "r1 & r2" := (Seq r1 r2)
  (at level 45, right associativity) : regex_scope.
Notation "r1 |. r2" := (Alt r1 r2)
  (at level 55, right associativity) : regex_scope.

(** ** The browser's objects *)

(** A [URL] object, by the components the adapter and its specification
    read.  [protocol] is the scheme with its colon ("https:"), [host]
    includes the port, [searchParams] is the parsed query: the pairs of
    names and values in the order of the query, a name possibly more than
    once.  [new URL(url.href)] parses the serialisation of [url] again and
    has the same components, so its [searchParams] are those of [url]. *)
Record URL : Type := {
  protocol : string;
  host : string;
  pathname : string;
  searchParams : list (string * string)
}.

(** [protocol] without the colon. *)
Definition scheme (url : URL) : string :=
  if endsWith (protocol url) ":"
  then String.substring 0 (String.length (protocol url) - 1) (protocol url)
  else protocol url.

Module URLSearchParams.

(** [params.has(name)] *)
Definition has (params : list (string * string)) (name : string) : bool :=
  existsb (fun p => String.eqb (fst p) name) params.

(** [params.get(name)]: the value of the first pair named [name], [None]
    for [null]. *)
Fixpoint get (params : list (string * string)) (name : string)
  : option string :=
  match params with
  | [] => None
  | (k, v) :: rest => if String.eqb k name then Some v else get rest name
  end.

End URLSearchParams.

(** The [Document], by what the adapter reads: the [id] of its [body]
    (the type of [document.body] is [HTMLElement], never [null]). *)
Record Element : Type := { id : string }.
Record Document : Type := { body : Element }.

(** ** Route templates (package micro-match) *)

Module MicroMatch.

(** The parameters captured by a match, by name; none when the path does
    not match. *)
Definition params : Type := list (string * string).

(** Modelled from the spec: the segments of a template against the segments
    of a path, see [match_]. *)
Fixpoint match_segments (pattern path : list string) : option params :=
  match pattern, path with
  | [], [] => Some []
  | String ":" name :: pattern', segment :: path' =>
      if String.eqb segment "" then None
      else option_map (cons (name, segment)) (match_segments pattern' path')
  | literal :: pattern', segment :: path' =>
      if String.eqb literal segment then match_segments pattern' path'
      else None
  | _, _ => None
  end.

(** Modelled from the spec: the route-template matcher [match(template,
    path) -> captured-params-or-empty] of the package micro-match, which is
    not among the sources.  A template and a path match segment by segment
    (the pieces between the slashes): a segment [:name] of the template
    captures a non-empty segment of the path under [name], every other
    segment of the template stands for itself. *)
Definition match_ (pattern path : string) : params :=
  match match_segments (split "/" pattern) (split "/" path) with
  | Some captured => captured
  | None => []
  end.

(** [match(pattern, path).name], [None] for [undefined]. *)
Definition prop (name : string) (captured : params) : option string :=
  URLSearchParams.get captured name.

End MicroMatch.
Import MicroMatch.

(** ** Values and promises *)

(** [Boolean(v)] for a string that may be [null] or [undefined]. *)
Definition truthy (v : option string) : bool :=
  match v with
  | Some s => negb (String.eqb s "")
  | None => false
  end.

(** [values.find(Boolean)] *)
Fixpoint find_truthy (values : list (option string)) : option string :=
  match values with
  | [] => None
  | v :: rest => if truthy v then v else find_truthy rest
  end.

(** The structured-document libraries (mdast-util-from-adf,
    mdast-util-to-markdown with the extension of mdast-util-gfm): the type of
    the structured documents, the type of the markup trees and the two
    conversions. *)
Class Converter : Type := {
  ADF : Type;
  Mdast : Type;
  fromADF : ADF -> Mdast;
  toMarkdown : Mdast -> string
}.

Section Adapter.

Context {converter : Converter}.

(** The ticket as the API sends it; [description] is a structured
    document (a JavaScript object, truthy) or [None] for [null] or no
    field at all. *)
Record IssueType : Type := { name : string }.

Record Fields : Type := {
  issuetype : IssueType;
  summary : string;
  description : option ADF
}.

Record JiraTicketInfo : Type := {
  key : string;
  fields : Fields
}.

Record TicketData : Type := {
  ticket_type : string;
  ticket_id : string;
  ticket_title : string;
  ticket_description : option string;   (* [None] for [undefined] *)
  ticket_url : string
}.

(** An asynchronous computation: it resolves with a value, or it issues a
    GET request for a target and goes on with the body of the response,
    parsed as JSON.  A request that fails rejects the whole computation
    (see [settle]). *)
Inductive Promise (A : Type) : Type :=
| Resolve (a : A)
| Get (target : string) (continue : JiraTicketInfo -> Promise A).

Fixpoint bind {A B : Type} (p : Promise A) (f : A -> Promise B) : Promise B :=
  match p with
  | Resolve a => f a
  | Get target continue => Get target (fun r => bind (continue r) f)
  end.

(** The targets of the requests of [p], in order, in a network [net] that
    answers a target with a ticket or fails. *)
Fixpoint requests {A : Type} (net : string -> option JiraTicketInfo)
  (p : Promise A) : list string :=
  match p with
  | Resolve _ => []
  | Get target continue =>
      target :: match net target with
                | Some r => requests net (continue r)
                | None => []
                end
  end.

(** The value [p] resolves with in the network [net], [None] when it
    rejects. *)
Fixpoint settle {A : Type} (net : string -> option JiraTicketInfo)
  (p : Promise A) : option A :=
  match p with
  | Resolve a => Some a
  | Get target continue =>
      match net target with
      | Some r => settle net (continue r)
      | None => None
      end
  end.

(** Modelled from the spec: the module [../client], which is not among the
    sources.  [client(base).get(path).json()] issues one GET to [path]
    under [base] and resolves with the body of the response. *)
Definition client (base path : string) : Promise JiraTicketInfo :=
  Get (base ++ "/" ++ path) (fun response => Resolve response).

(** *** The adapter *)

Definition isJiraPage (url : URL) (document : Document) : bool :=
  if endsWith (host url) ".atlassian.net" then true
  else if String.eqb (id (body document)) "jira" then true
  else false.

Definition pathSuffixes : regex :=
  (Lit "/" &
   Opt (Lit "jira/software/" & Opt (Class (NoneOf "/") & Lit "/")) &
   ((Lit "browse/" & Plus (NoneOf "/")) |.
    (Lit "projects/" & Plus (NoneOf "/") & Lit "/issues/" & Plus (NoneOf "/")) |.
    (Lit "projects/" & Plus (NoneOf "/") & Lit "/boards/" & Star Dot) |.
    (Lit "secure/RapidBoard" & Class Dot & Lit "jspa")) &
   Eos)%re.

(** The product segment [/jira/software], with or without the
    one-character segment that [pathSuffixes] lets follow it, at the end
    of a path. *)
Definition productSegment : regex :=
  (Lit "/jira/software" & Opt (Lit "/" & Class (NoneOf "/")) & Eos)%re.

(** The start of the route of a board, [/projects/<P>/boards/]. *)
Definition boardsRoute : regex :=
  (Lit "/projects/" & Plus (NoneOf "/") & Lit "/boards/")%re.

Definition getPathPrefix (url : URL) : string :=
  replace_all pathSuffixes "" (pathname url).

Definition getSelectedIssueId (url : URL) (prefix : string) : option string :=
  let params := searchParams url in
  if URLSearchParams.has params "selectedIssue"
  then URLSearchParams.get params "selectedIssue"
  else
    let path :=
      replace_first (Bos & Lit "/jira/software")%re ""
        (substr (String.length prefix) (pathname url)) in
    find_truthy
      (map (fun pattern => prop "id" (match_ pattern path))
         ["/projects/:project/issues/:id"; "/browse/:id"]).

Definition extractTicketInfo (info : JiraTicketInfo) (host : string)
  : TicketData :=
  let id := key info in
  let fields := fields info in
  let title := summary fields in
  let type := toLowerCase (name (issuetype fields)) in
  let url := "https://" ++ host ++ "/browse/" ++ id in
  let description :=
    match description fields with
    | Some document => Some (toMarkdown (fromADF document))
    | None => None
    end in
  {| ticket_type := type;
     ticket_id := id;
     ticket_title := title;
     ticket_description := description;
     ticket_url := url |}.

Definition scan (url : URL) (document : Document) : Promise (list TicketData) :=
  if negb (isJiraPage url document) then Resolve []
  else
    let prefix := getPathPrefix url in
    match getSelectedIssueId url prefix with
    | None => Resolve []
    | Some id =>
        if negb (truthy (Some id)) then Resolve []
        else
          let jira := client ("https://" ++ host url ++ prefix ++ "/rest/api/3") in
          bind (jira ("issue/" ++ id))
            (fun response =>
               Resolve [extractTicketInfo response (host url)])
    end.

End Adapter.

(** A converter to run the adapter with: documents are plain text. *)
Definition plain_text : Converter :=
  {| ADF := string; Mdast := string;
     fromADF := fun document => document;
     toMarkdown := fun tree => tree |}.

(** ** Pages to run the adapter on *)

Module Scenarios.

(** A board with a selected issue. *)
Definition board : URL :=
  {| protocol := "https:"; host := "acme.atlassian.net";
     pathname := "/secure/RapidBoard.jspa";
     searchParams := [("rapidView", "1"); ("selectedIssue", "ACME-7")] |}.

(** An issue view. *)
Definition issue_view : URL :=
  {| protocol := "https:"; host := "acme.atlassian.net";
     pathname := "/browse/ACME-42"; searchParams := [] |}.

(** An issue of a project. *)
Definition project_issue : URL :=
  {| protocol := "https:"; host := "acme.atlassian.net";
     pathname := "/projects/ACME/issues/ACME-42"; searchParams := [] |}.

(** An issue view with a [selectedIssue] parameter without a value. *)
Definition issue_view_empty_parameter : URL :=
  {| protocol := "https:"; host := "acme.atlassian.net";
     pathname := "/browse/ACME-42"; searchParams := [("selectedIssue", "")] |}.

(** A self-managed instance under the path [/jira]. *)
Definition self_managed : URL :=
  {| protocol := "https:"; host := "tracker.internal.example";
     pathname := "/jira/browse/OPS-3"; searchParams := [] |}.

(** A self-managed instance that is served over http. *)
Definition self_managed_http : URL :=
  {| protocol := "http:"; host := "tracker.internal.example";
     pathname := "/jira/browse/OPS-3"; searchParams := [] |}.

(** An issue view behind the product segment. *)
Definition product_issue_view : URL :=
  {| protocol := "https:"; host := "acme.atlassian.net";
     pathname := "/jira/software/browse/ACME-42"; searchParams := [] |}.

(** An issue view behind the product segment and a segment of one
    character. *)
Definition classic_issue_view : URL :=
  {| protocol := "https:"; host := "acme.atlassian.net";
     pathname := "/jira/software/c/browse/ACME-42"; searchParams := [] |}.

(** A path in which the route of a board comes before the route of an
    issue view. *)
Definition board_issue_view : URL :=
  {| protocol := "https:"; host := "acme.atlassian.net";
     pathname := "/projects/ACME/boards/browse/ACME-42"; searchParams := [] |}.

(** A page of another site. *)
Definition elsewhere : URL :=
  {| protocol := "https:"; host := "example.org";
     pathname := "/browse/ACME-42"; searchParams := [] |}.

Definition jira_document : Document := {| body := {| id := "jira" |} |}.
Definition plain_document : Document := {| body := {| id := "" |} |}.

(** The ticket ACME-42 as the API sends it, without a description. *)
Definition acme_42 : @JiraTicketInfo plain_text :=
  {| key := "ACME-42";
     fields := {| issuetype := {| name := "Bug" |};
                  summary := "Login fails";
                  description := None |} |}.

(** A network that has this one ticket. *)
Definition acme_net (target : string) : option (@JiraTicketInfo plain_text) :=
  if String.eqb target "https://acme.atlassian.net/rest/api/3/issue/ACME-42"
  then Some acme_42 else None.

(** A network that is down. *)
Definition offline (target : string) : option (@JiraTicketInfo plain_text) :=
  None.

End Scenarios.

(** ** More pages *)

Module Pages.

(** An issue of a project on a self-managed instance under [/jira]. *)
Definition self_managed_project_issue : URL :=
  {| protocol := "https:"; host := "tracker.internal.example";
     pathname := "/jira/projects/OPS/issues/OPS-3"; searchParams := [] |}.

(** A board with a selected issue on a self-managed instance under
    [/jira]. *)
Definition self_managed_board : URL :=
  {| protocol := "https:"; host := "tracker.internal.example";
     pathname := "/jira/secure/RapidBoard.jspa";
     searchParams := [("rapidView", "1"); ("selectedIssue", "OPS-3")] |}.

(** The boards of a self-managed instance under [/jira], no issue
    selected. *)
Definition self_managed_board_unselected : URL :=
  {| protocol := "https:"; host := "tracker.internal.example";
     pathname := "/jira/secure/RapidBoard.jspa";
     searchParams := [("rapidView", "1")] |}.

(** A dashboard: no route of the adapter. *)
Definition dashboard : URL :=
  {| protocol := "https:"; host := "acme.atlassian.net";
     pathname := "/secure/Dashboard.jspa"; searchParams := [] |}.

(** A dashboard with a selected issue. *)
Definition dashboard_selected : URL :=
  {| protocol := "https:"; host := "acme.atlassian.net";
     pathname := "/secure/Dashboard.jspa";
     searchParams := [("selectedIssue", "ACME-7")] |}.

(** The issue view over http, with other parameters. *)
Definition issue_view_http : URL :=
  {| protocol := "http:"; host := "acme.atlassian.net";
     pathname := "/browse/ACME-42"; searchParams := [("focusedId", "1")] |}.


End Pages.

(** * Properties *)

(** ** Strings *)

Section StringFacts.

Implicit Types s t u v : string.

Lemma app_assoc s t u : (s ++ t) ++ u = s ++ (t ++ u).
Proof. induction s as [|a s IH]; simpl; [reflexivity | now rewrite IH]. Qed.

Lemma app_nil_r s : s ++ "" = s.
Proof. induction s as [|a s IH]; simpl; [reflexivity | now rewrite IH]. Qed.

Lemma length_app s t : String.length (s ++ t) = String.length s + String.length t.
Proof. induction s as [|a s IH]; simpl; [reflexivity | now rewrite IH]. Qed.

Lemma length_zero s : String.length s = 0 -> s = "".
Proof. destruct s; [reflexivity | discriminate]. Qed.

Lemma app_inv_head s t u : s ++ t = s ++ u -> t = u.
Proof.
  induction s as [|a s IH]; simpl; intros H; [exact H|].
  injection H as H. auto.
Qed.

(** Two ways to cut one string at the same index are the same cut. *)
Lemma app_eq_length s t u v :
  s ++ t = u ++ v -> String.length s = String.length u -> s = u /\ t = v.
Proof.
  revert u; induction s as [|a s IH]; intros [|b u]; simpl; intros H L;
    try discriminate; [auto|].
  injection H as -> H. injection L as L.
  destruct (IH u H L) as [-> ->]. auto.
Qed.

Lemma app_eq_length_r s t u v :
  s ++ t = u ++ v -> String.length t = String.length v -> s = u /\ t = v.
Proof.
  intros H L. apply app_eq_length; [exact H|].
  apply (f_equal String.length) in H. rewrite !length_app in H. lia.
Qed.

Lemma app_inv_tail s t u : s ++ u = t ++ u -> s = t.
Proof. intros H. now apply app_eq_length_r in H. Qed.

(** Of two cuts of one string, the earlier one cuts a prefix off the
    head of the later one. *)
Lemma app_eq_prefix s t u v :
  s ++ t = u ++ v -> String.length s <= String.length u ->
  exists w, u = s ++ w /\ t = w ++ v.
Proof.
  revert u; induction s as [|a s IH]; intros u H L; simpl in *.
  - exists u. auto.
  - destruct u as [|b u]; simpl in *; [lia|].
    injection H as -> H.
    destruct (IH u H) as (w & -> & ->); [lia|].
    exists w. auto.
Qed.

Lemma substr_app s t : substr (String.length s) (s ++ t) = t.
Proof. induction s as [|a s IH]; simpl; [now destruct t | exact IH]. Qed.

Lemma startsWith_iff s t : startsWith s t = true <-> exists u, t = s ++ u.
Proof.
  revert t; induction s as [|a s IH]; intros t; simpl.
  - split; [exists t; reflexivity | reflexivity].
  - destruct t as [|b t].
    + split; [discriminate | intros (u & H); discriminate].
    + rewrite andb_true_iff, Ascii.eqb_eq, IH. split.
      * intros (-> & u & ->). exists u. reflexivity.
      * intros (u & H). injection H as -> ->. split; [reflexivity | now exists u].
Qed.

Lemma endsWith_iff s t : endsWith s t = true <-> exists u, s = u ++ t.
Proof.
  induction s as [|a s IH].
  - change (endsWith "" t) with (String.eqb "" t || false).
    rewrite orb_false_r, String.eqb_eq. split.
    + intros <-. now exists "".
    + intros ([|b u] & H); simpl in H; [auto | discriminate].
  - change (endsWith (String a s) t)
      with (String.eqb (String a s) t || endsWith s t).
    rewrite orb_true_iff, String.eqb_eq, IH. split.
    + intros [<- | (u & ->)]; [now exists "" | now exists (String a u)].
    + intros ([|b u] & H); simpl in H; [auto|].
      injection H as -> ->. right. now exists u.
Qed.

Lemma lacks_app a s t : lacks a (s ++ t) = lacks a s && lacks a t.
Proof.
  induction s as [|b s IH]; simpl; [reflexivity|].
  now rewrite IH, andb_assoc.
Qed.

Lemma lacks_cons a s : lacks a (String a s) = false.
Proof. simpl. now rewrite Ascii.eqb_refl. Qed.

(** The last segment: what follows the last [a] of a string. *)
Lemma last_segment a s t u v :
  lacks a t = true -> lacks a v = true ->
  s ++ String a t = u ++ String a v -> s = u /\ t = v.
Proof.
  intros Ht Hv. revert u; induction s as [|b s IH]; intros [|c u] H;
    simpl in H; injection H; clear H; intros H; intros; subst.
  - auto.
  - rewrite lacks_app, lacks_cons, andb_false_r in Ht. discriminate.
  - rewrite lacks_app, lacks_cons, andb_false_r in Hv. discriminate.
  - destruct (IH u H) as [-> ->]. auto.
Qed.

Lemma split_lacks a s : lacks a s = true -> split a s = [s].
Proof.
  induction s as [|b s IH]; simpl; [reflexivity|].
  rewrite andb_true_iff, negb_true_iff. intros [-> H]. now rewrite IH.
Qed.

Lemma split_segment a s t :
  lacks a s = true -> split a (s ++ String a t) = s :: split a t.
Proof.
  induction s as [|b s IH]; simpl.
  - now rewrite Ascii.eqb_refl.
  - rewrite andb_true_iff, negb_true_iff. intros [-> H]. now rewrite IH.
Qed.

End StringFacts.

(** ** The matcher *)

Section RegExpFacts.

Lemma in_star cs s : forall i j t,
  In (j, t) (star cs i s) <->
  exists m, s = m ++ t /\ all_mem cs m = true /\ j = i + String.length m.
Proof.
  induction s as [|a s IH]; intros i j t.
  - simpl. split.
    + intros [H|[]]. injection H as <- <-. exists "". auto.
    + intros ([|b m] & H & _ & ->); simpl in H; [|discriminate].
      left. subst t. simpl. f_equal. lia.
  - change (star cs i (String a s))
      with (if mem cs a then (star cs (S i) s ++ [(i, String a s)])%list
            else [(i, String a s)]).
    destruct (mem cs a) eqn:E.
    + rewrite in_app_iff, IH. split.
      * intros [(m & -> & Hm & ->) | [H|[]]].
        -- exists (String a m). simpl. rewrite E, Hm. repeat split. lia.
        -- injection H as <- <-. exists "". auto.
      * intros ([|b m] & H & Hm & ->); simpl in H, Hm.
        -- right. left. subst t. simpl. f_equal. lia.
        -- injection H as <- ->. left. exists m.
           apply andb_true_iff in Hm. simpl. repeat split; [tauto | lia].
    + split.
      * intros [H|[]]. injection H as <- <-. exists "". auto.
      * intros ([|b m] & H & Hm & ->); simpl in H, Hm.
        -- left. subst t. simpl. f_equal. lia.
        -- injection H as <- ->. rewrite E in Hm. discriminate.
Qed.

(** [run] enumerates [matches]. *)
Lemma run_matches r : forall c c', In c' (run r c) <-> matches r c c'.
Proof.
  induction r as [l|cs|r1 IH1 r2 IH2|r1 IH1 r2 IH2|r1 IH1|cs|cs| |];
    intros [i s] [j t]; simpl.
  - destruct (startsWith l s) eqn:E.
    + apply startsWith_iff in E as (u & ->). rewrite substr_app. simpl. split.
      * intros [H|[]]. injection H as <- <-. auto.
      * intros [H ->]. apply app_inv_head in H as ->. auto.
    + split; [intros [] | intros [-> _]].
      assert (startsWith l (l ++ t) = true) as E'
        by (apply startsWith_iff; now exists t).
      congruence.
  - destruct s as [|a s].
    + split; [intros [] | intros (a & H & _); discriminate].
    + destruct (mem cs a) eqn:E; simpl.
      * split.
        -- intros [H|[]]. injection H as <- <-. exists a. auto.
        -- intros (b & H & _ & ->). injection H as <- <-. auto.
      * split; [intros [] | intros (b & H & Hb & _)].
        injection H as <- <-. congruence.
  - rewrite in_flat_map. split.
    + intros (m & H1 & H2). exists m. split; [now apply IH1 | now apply IH2].
    + intros (m & H1 & H2). exists m. split; [now apply IH1 | now apply IH2].
  - rewrite in_app_iff, IH1, IH2. reflexivity.
  - rewrite in_app_iff, IH1. simpl. intuition.
  - apply in_star.
  - destruct s as [|a s].
    + split; [intros [] | intros ([|b m] & Hm & H & _)];
        [congruence | discriminate].
    + destruct (mem cs a) eqn:E.
      * rewrite in_star. split.
        -- intros (m & -> & Hm & ->). exists (String a m). simpl.
           rewrite E, Hm. repeat split; [discriminate | lia].
        -- intros ([|b m] & Hne & H & Hm & ->); [congruence|].
           simpl in H, Hm. injection H as <- ->. exists m.
           apply andb_true_iff in Hm. simpl. repeat split; [tauto | lia].
      * split; [intros [] | intros ([|b m] & Hne & H & Hm & _)];
          [congruence|].
        simpl in H, Hm. injection H as <- ->. rewrite E in Hm. discriminate.
  - destruct i; simpl.
    + split; [intros [H|[]]; now injection H as <- <- | intros [H _]; auto].
    + split; [intros [] | intros [_ H]; discriminate].
  - destruct s as [|a s]; simpl.
    + split; [intros [H|[]]; now injection H as <- <- | intros [H _]; auto].
    + split; [intros [] | intros [_ H]; discriminate].
Qed.

(** A match consumes a piece of the subject, and the index moves by its
    length. *)
Lemma matches_consumes r : forall c c',
  matches r c c' ->
  exists m, snd c = m ++ snd c' /\ fst c' = fst c + String.length m.
Proof.
  induction r as [l|cs|r1 IH1 r2 IH2|r1 IH1 r2 IH2|r1 IH1|cs|cs| |];
    intros c c'; simpl.
  - intros [H1 H2]. now exists l.
  - intros (a & H1 & _ & H2). exists (String a ""). simpl. split; [auto | lia].
  - intros (m & H1 & H2).
    destruct (IH1 _ _ H1) as (m1 & E1 & L1), (IH2 _ _ H2) as (m2 & E2 & L2).
    exists (m1 ++ m2). rewrite app_assoc, length_app, <- E2. split; [auto | lia].
  - intros [H|H]; auto.
  - intros [H| ->]; [auto|]. exists "". simpl. split; [auto | lia].
  - intros (m & H1 & _ & H2). now exists m.
  - intros (m & _ & H1 & _ & H2). now exists m.
  - intros [-> _]. exists "". simpl. split; [auto | lia].
  - intros [-> _]. exists "". simpl. split; [auto | lia].
Qed.

Lemma run_nil r c : run r c = [] <-> forall c', ~ matches r c c'.
Proof.
  split.
  - intros E c' H. apply run_matches in H. rewrite E in H. exact H.
  - intros H. destruct (run r c) as [|c' l] eqn:E; [reflexivity|].
    exfalso. apply (H c'), run_matches. rewrite E. now left.
Qed.

Lemma run_cons r c : run r c <> [] <-> exists c', matches r c c'.
Proof.
  split.
  - destruct (run r c) as [|c' l] eqn:E; [congruence|]. intros _.
    exists c'. apply run_matches. rewrite E. now left.
  - intros (c' & H) E. apply run_matches in H. rewrite E in H. exact H.
Qed.

(** [test] finds no match: there is none at any index. *)
Lemma test_from_false r u : forall i v,
  test_from r i (u ++ v) = false -> run r (i + String.length u, v) = [].
Proof.
  induction u as [|a u IH]; intros i v; simpl.
  - rewrite Nat.add_0_r. destruct v; simpl; destruct (run r _); congruence.
  - destruct (run r (i, String a (u ++ v))); [|discriminate].
    intros H. rewrite Nat.add_succ_r. now apply (IH (S i)).
Qed.

Lemma test_false r u v :
  test r (u ++ v) = false -> run r (String.length u, v) = [].
Proof. apply (test_from_false r u 0). Qed.

(** *** Replacing a pattern that matches up to the end of the subject *)

Section ToTheEnd.

Variable r : regex.
Hypothesis r_end : forall c c', matches r c c' -> snd c' = "".
Hypothesis r_nonempty : forall c c', matches r c c' -> snd c <> "".

Lemma replace_skip s : forall skip i,
  String.length s <= skip -> replace_from r "" skip i s = "".
Proof.
  induction s as [|a s IH]; intros [|k] i L; simpl in *.
  - destruct (run r (i, "")) as [|[j t] l]; reflexivity.
  - reflexivity.
  - lia.
  - apply IH. lia.
Qed.

Lemma replace_match i s :
  run r (i, s) <> [] -> replace_from r "" 0 i s = "".
Proof.
  intros H. destruct (run r (i, s)) as [|[j t] l] eqn:E; [congruence|].
  clear H.
  assert (matches r (i, s) (j, t)) as M
    by (apply run_matches; rewrite E; now left).
  pose proof (r_end _ _ M) as Ht. pose proof (r_nonempty _ _ M) as Hs.
  apply matches_consumes in M as (m & Hm & Hj). simpl in *. subst t.
  rewrite app_nil_r in Hm. subst m.
  destruct s as [|a s]; [congruence|]. simpl. rewrite E.
  simpl in Hj. replace (j =? i)%nat with false
    by (symmetry; apply Nat.eqb_neq; lia).
  simpl. apply replace_skip. lia.
Qed.

(** The leftmost match is cut off. *)
Lemma replace_leftmost u : forall i v,
  (forall u1 u2, u = u1 ++ u2 -> u2 <> "" ->
                 run r (i + String.length u1, u2 ++ v) = []) ->
  run r (i + String.length u, v) <> [] ->
  replace_from r "" 0 i (u ++ v) = u.
Proof.
  induction u as [|a u IH]; intros i v Hnone Hv; simpl.
  - simpl in Hv. rewrite Nat.add_0_r in Hv. now apply replace_match.
  - pose proof (Hnone "" (String a u) eq_refl) as E. simpl in E.
    rewrite Nat.add_0_r in E. rewrite E by discriminate.
    f_equal. apply IH.
    + intros u1 u2 -> Hu2.
      specialize (Hnone (String a u1) u2 eq_refl Hu2). simpl in Hnone.
      now rewrite Nat.add_succ_r in Hnone.
    + simpl in Hv. now rewrite Nat.add_succ_r in Hv.
Qed.

End ToTheEnd.

(** A pattern that starts with [^] matches at index 0 only. *)
Lemma replace_first_bos r repl s :
  replace_first (Bos & r)%re repl s =
  match run r (0, s) with
  | (_, rest) :: _ => repl ++ rest
  | [] => s
  end.
Proof.
  unfold replace_first.
  assert (forall t i, replace_first_from (Bos & r)%re repl (S i) t = t) as H.
  { induction t as [|a t IH]; intros i; simpl; [reflexivity|].
    now rewrite IH. }
  destruct s as [|a s]; simpl; rewrite List.app_nil_r.
  - now destruct (run r (0, "")) as [|[j t] l].
  - destruct (run r (0, String a s)) as [|[j t] l]; [|reflexivity].
    now rewrite H.
Qed.

End RegExpFacts.

(** ** The hosting prefix *)

Section PathSuffixes.

Lemma all_mem_NoneOf a s : all_mem (NoneOf a) s = lacks a s.
Proof. induction s as [|b s IH]; simpl; [reflexivity | now rewrite IH]. Qed.

(** What [pathSuffixes] matches: a slash, possibly the product segment,
    one of the four routes, up to the end of the path. *)
Lemma pathSuffixes_inv i s c' :
  matches pathSuffixes (i, s) c' ->
  exists product route,
    snd c' = "" /\ s = "/" ++ product ++ route /\
    (product = "" \/ product = "jira/software/" \/
     exists a, (a =? "/")%char = false /\
               product = "jira/software/" ++ String a "/") /\
    ((exists K, K <> "" /\ lacks "/" K = true /\ route = "browse/" ++ K) \/
     (exists P K, lacks "/" K = true /\
                  route = "projects/" ++ P ++ "/issues/" ++ K) \/
     (exists P R, P <> "" /\ lacks "/" P = true /\
                  route = "projects/" ++ P ++ "/boards/" ++ R) \/
     (exists a, route = "secure/RapidBoard" ++ String a "jspa")).
Proof.
  simpl. intros ([j0 t0] & [H0 _] & [j1 t1] & Hp & [j2 t2] & Hr & -> & He).
  simpl in *. subst s t2.
  assert (exists product, t0 = product ++ t1 /\
            (product = "" \/ product = "jira/software/" \/
             exists a, (a =? "/")%char = false /\
                       product = "jira/software/" ++ String a "/"))
    as (product & -> & Hprod).
  { destruct Hp as [([j3 t3] & [Hj _] & Hc) | Heq]; simpl in *.
    - destruct Hc as [([j4 t4] & (a & Ha & Hna & _) & Hs & _) | Heq];
        simpl in *.
      + exists ("jira/software/" ++ String a "/"). subst. simpl.
        apply negb_true_iff in Hna. eauto 6.
      + injection Heq as _ ->. exists "jira/software/". subst. auto.
    - injection Heq as _ ->. exists "". auto. }
  exists product, t1. do 2 (split; [reflexivity|]). split; [exact Hprod|].
  clear Hp Hprod.
  destruct Hr as [Hr | [Hr | [Hr | Hr]]].
  - destruct Hr as ([j3 t3] & [-> _] & K & HK & Ht & HKs & _). simpl in *.
    subst t3. rewrite app_nil_r, all_mem_NoneOf in *. left. eauto.
  - destruct Hr as ([j3 t3] & [-> _] & [j4 t4] & (P & _ & Ht3 & _ & _)
                    & [j5 t5] & [Ht4 _] & K & _ & Ht5 & HKs & _).
    simpl in *. subst. rewrite app_nil_r, all_mem_NoneOf in *.
    right; left. exists P, K. auto.
  - destruct Hr as ([j3 t3] & [-> _] & [j4 t4] & (P & HP & Ht3 & HPs & _)
                    & [j5 t5] & [Ht4 _] & R & Ht5 & _).
    simpl in *. subst. rewrite app_nil_r, all_mem_NoneOf in *.
    right; right; left. exists P, R. auto.
  - destruct Hr as ([j3 t3] & [-> _] & [j4 t4] & (a & Ht3 & _) & [Ht4 _]).
    simpl in *. subst. right; right; right. exists a. reflexivity.
Qed.

Lemma pathSuffixes_end c c' : matches pathSuffixes c c' -> snd c' = "".
Proof.
  destruct c as [i s]. intros H.
  now apply pathSuffixes_inv in H as (product & route & H & _).
Qed.

Lemma pathSuffixes_nonempty c c' : matches pathSuffixes c c' -> snd c <> "".
Proof.
  destruct c as [i s]. intros H.
  apply pathSuffixes_inv in H as (product & route & _ & -> & _). discriminate.
Qed.

(** The routes of an issue are matched, with and without the product
    segment. *)
Lemma pathSuffixes_issue i product route :
  product = "" \/ product = "/jira/software" ->
  (exists K, K <> "" /\ lacks "/" K = true /\ route = "/browse/" ++ K) \/
  (exists P K, P <> "" /\ lacks "/" P = true /\ K <> "" /\
               lacks "/" K = true /\
               route = "/projects/" ++ P ++ "/issues/" ++ K) ->
  run pathSuffixes (i, product ++ route) <> [].
Proof.
  intros Hp Hr. apply run_cons.
  assert (exists tail c',
            route = String "/" tail /\
            matches (((Lit "browse/" & Plus (NoneOf "/")) |.
                      (Lit "projects/" & Plus (NoneOf "/") & Lit "/issues/" &
                       Plus (NoneOf "/")) |.
                      (Lit "projects/" & Plus (NoneOf "/") & Lit "/boards/" &
                       Star Dot) |.
                      (Lit "secure/RapidBoard" & Class Dot & Lit "jspa")) &
                     Eos)%re
              (i + String.length product + 1, tail) c')
    as (tail & c' & -> & M).
  { destruct Hr as [(K & HK & HKs & ->) | (P & K & HP & HPs & HK & HKs & ->)].
    - exists ("browse/" ++ K), (i + String.length product + 1 + 7 + String.length K, "").
      split; [reflexivity|]. simpl.
      exists (i + String.length product + 1 + 7 + String.length K, "").
      split; [|auto]. left.
      exists (i + String.length product + 1 + 7, K). simpl.
      split; [auto|]. exists K.
      rewrite app_nil_r, all_mem_NoneOf. auto.
    - exists ("projects/" ++ P ++ "/issues/" ++ K),
        (i + String.length product + 1 + 9 + String.length P + 8
         + String.length K, "").
      split; [reflexivity|]. simpl.
      eexists (_, ""). split; [|split; reflexivity]. right; left.
      exists (i + String.length product + 1 + 9, P ++ "/issues/" ++ K).
      simpl. split; [auto|].
      exists (i + String.length product + 1 + 9 + String.length P,
              "/issues/" ++ K).
      simpl. split; [exists P; rewrite all_mem_NoneOf; auto|].
      exists (i + String.length product + 1 + 9 + String.length P + 8, K).
      simpl. split; [auto|]. exists K.
      rewrite app_nil_r, all_mem_NoneOf. auto. }
  exists c'.
  destruct M as (m & M & E).
  destruct Hp as [-> | ->]; simpl.
  - exists (i + 1, tail). split; [auto|].
    exists (i + 1, tail). split; [now right|].
    exists m. split; [|exact E].
    simpl in M. now rewrite Nat.add_0_r in M.
  - exists (i + 1, "jira/software/" ++ tail). split; [auto|].
    exists (i + 1 + 14, tail). split.
    + left. exists (i + 1 + 14, tail). simpl. split; [auto | now right].
    + exists m. split; [|exact E].
      simpl in M. now replace (i + 1 + 14) with (i + 14 + 1) by lia.
Qed.

Lemma boardsRoute_found w P R :
  P <> "" -> lacks "/" P = true ->
  test boardsRoute (w ++ "/projects/" ++ P ++ "/boards/" ++ R) <> false.
Proof.
  intros HP HPs H. apply test_false in H.
  apply (proj1 (run_nil _ _) H (String.length w + 10 + String.length P + 8, R)).
  simpl. exists (String.length w + 10, P ++ "/boards/" ++ R).
  split; [auto|].
  exists (String.length w + 10 + String.length P, "/boards/" ++ R).
  split; [|auto]. exists P. rewrite all_mem_NoneOf. auto.
Qed.

Lemma productSegment_found w tail :
  tail = "/jira/software" \/
  (exists a, (a =? "/")%char = false /\ tail = "/jira/software/" ++ String a "") ->
  test productSegment (w ++ tail) <> false.
Proof.
  intros Ht H. apply test_false in H.
  destruct Ht as [-> | (a & Ha & ->)]; simpl in H.
  - discriminate.
  - rewrite Ha in H. discriminate.
Qed.

(* [H] says so up to the bracketing of the appends. *)
Ltac regroup H :=
  rewrite ?app_assoc; simpl; rewrite ?app_assoc; simpl; exact H.

(* Two strings with different tails of one length are different. *)
Ltac tails H :=
  apply app_eq_length_r in H as [_ H]; [discriminate | reflexivity].

Lemma browse_no_earlier i u1 u2 product K :
  u2 <> "" -> product = "" \/ product = "/jira/software" ->
  lacks "/" K = true ->
  (product = "" -> test productSegment (u1 ++ u2) = false) ->
  test boardsRoute (u1 ++ u2 ++ product ++ "/browse/" ++ K) = false ->
  run pathSuffixes (i, u2 ++ product ++ "/browse/" ++ K) = [].
Proof.
  intros Hu2 Hproduct HK Hps Hbr. apply run_nil. intros c' M.
  apply pathSuffixes_inv in M as (prod & route & _ & E & Hprod & Hroute).
  destruct Hroute as [(K' & _ & HK' & ->) | [(P & K' & HK' & ->)
                      | [(P & R & HP & HPs & ->) | (a & ->)]]].
  - (* browse: the match starts at the product segment or at the route *)
    assert ((u2 ++ product ++ "/browse") ++ String "/" K =
            ("/" ++ prod ++ "browse") ++ String "/" K') as E1 by regroup E.
    apply last_segment in E1 as [E1 _]; [|assumption..].
    destruct Hprod as [-> | [-> | (a & Ha & ->)]].
    + assert ((u2 ++ product) ++ "/browse" = "" ++ "/browse") as E2
        by regroup E1.
      apply app_inv_tail in E2.
      destruct u2; [congruence | discriminate].
    + assert ((u2 ++ product) ++ "/browse" = "/jira/software" ++ "/browse")
        as E2 by regroup E1.
      apply app_inv_tail in E2.
      destruct Hproduct as [-> | ->].
      * rewrite app_nil_r in E2. subst u2.
        apply (@productSegment_found u1 "/jira/software"); auto.
      * change "/jira/software" with ("" ++ "/jira/software") in E2 at 2.
        apply app_inv_tail in E2. congruence.
    + assert ((u2 ++ product) ++ "/browse" =
              ("/jira/software/" ++ String a "") ++ "/browse")
        as E2 by regroup E1.
      apply app_inv_tail in E2.
      destruct Hproduct as [-> | ->].
      * rewrite app_nil_r in E2. subst u2.
        apply (@productSegment_found u1 ("/jira/software/" ++ String a ""));
          eauto.
      * destruct u2 as [|x [|y [|z u2]]]; simpl in E2; try discriminate.
        apply (f_equal String.length) in E2. simpl in E2.
        rewrite length_app in E2. simpl in E2. lia.
  - assert ((u2 ++ product ++ "/browse") ++ String "/" K =
            ("/" ++ prod ++ "projects/" ++ P ++ "/issues") ++ String "/" K')
      as E1 by regroup E.
    apply last_segment in E1 as [E1 _]; [|assumption..].
    assert ((u2 ++ product) ++ "/browse" =
            ("/" ++ prod ++ "projects/" ++ P) ++ "/issues") as E2
      by regroup E1.
    tails E2.
  - (* boards: the route of a board would start in the path *)
    assert (exists w, u1 ++ u2 ++ product ++ "/browse/" ++ K =
                      w ++ "/projects/" ++ P ++ "/boards/" ++ R) as (w & Ew).
    { rewrite E.
      destruct Hprod as [-> | [-> | (a & Ha & ->)]].
      - exists u1. reflexivity.
      - exists (u1 ++ "/jira/software"). now rewrite ?app_assoc.
      - exists (u1 ++ "/jira/software/" ++ String a "").
        now rewrite ?app_assoc. }
    rewrite Ew in Hbr. now apply boardsRoute_found in Hbr.
  - destruct (Ascii.eqb a "/") eqn:Ha.
    + apply Ascii.eqb_eq in Ha as ->.
      assert ((u2 ++ product ++ "/browse") ++ String "/" K =
              ("/" ++ prod ++ "secure/RapidBoard") ++ String "/" "jspa")
        as E1 by regroup E.
      apply last_segment in E1 as [E1 _]; [|assumption|reflexivity].
      assert ((u2 ++ product) ++ "/browse" =
              ("/" ++ prod ++ "secure/Rap") ++ "idBoard") as E2
        by regroup E1.
      tails E2.
    + assert ((u2 ++ product ++ "/browse") ++ String "/" K =
              ("/" ++ prod ++ "secure") ++
              String "/" ("RapidBoard" ++ String a "jspa"))
        as E1 by regroup E.
      apply last_segment in E1 as [E1 _];
        [|assumption | simpl; now rewrite Ha].
      assert ((u2 ++ product ++ "/") ++ "browse" = ("/" ++ prod) ++ "secure")
        as E2 by regroup E1.
      tails E2.
Qed.

(** The prefix of a path that ends in the route of an issue view. *)
Lemma getPathPrefix_browse url mount product K :
  pathname url = mount ++ product ++ "/browse/" ++ K ->
  product = "" \/ product = "/jira/software" ->
  K <> "" -> lacks "/" K = true ->
  (product = "" -> test productSegment mount = false) ->
  test boardsRoute (pathname url) = false ->
  getPathPrefix url = mount.
Proof.
  intros E Hproduct HK HKs Hps Hbr.
  unfold getPathPrefix, replace_all. rewrite E in *.
  apply replace_leftmost.
  - exact pathSuffixes_end.
  - exact pathSuffixes_nonempty.
  - intros u1 u2 -> Hu2. rewrite app_assoc in Hbr.
    now apply browse_no_earlier with (u1 := u1).
  - apply pathSuffixes_issue; [assumption|]. left. now exists K.
Qed.

(** A path that is the route of an issue, with or without the product
    segment, has no prefix. *)
Lemma getPathPrefix_route url product route :
  pathname url = product ++ route ->
  product = "" \/ product = "/jira/software" ->
  (exists K, K <> "" /\ lacks "/" K = true /\ route = "/browse/" ++ K) \/
  (exists P K, P <> "" /\ lacks "/" P = true /\ K <> "" /\
               lacks "/" K = true /\
               route = "/projects/" ++ P ++ "/issues/" ++ K) ->
  getPathPrefix url = "".
Proof.
  intros E Hproduct Hroute. unfold getPathPrefix, replace_all. rewrite E.
  apply replace_match.
  - exact pathSuffixes_end.
  - exact pathSuffixes_nonempty.
  - now apply pathSuffixes_issue.
Qed.

End PathSuffixes.

(** ** The selected issue *)

Section SelectedIssue.

Import URLSearchParams.

Lemma has_get params name :
  has params name = true <-> exists value, get params name = Some value.
Proof.
  induction params as [|[k v] params IH]; simpl.
  - split; [discriminate | intros (value & H); discriminate].
  - destruct (String.eqb k name); simpl; [|exact IH].
    split; [now exists v | reflexivity].
Qed.

(** Without the parameter, the identifier is the first truthy [id] that the
    route templates capture, in their order. *)
Lemma getSelectedIssueId_path url prefix :
  has (searchParams url) "selectedIssue" = false ->
  getSelectedIssueId url prefix =
  let path := replace_first (Bos & Lit "/jira/software")%re ""
                (substr (String.length prefix) (pathname url)) in
  find_truthy [prop "id" (match_ "/projects/:project/issues/:id" path);
               prop "id" (match_ "/browse/:id" path)].
Proof. intros H. unfold getSelectedIssueId. now rewrite H. Qed.

(** The product segment is stripped from the start of the path. *)
Lemma strip_product product route :
  product = "" \/ product = "/jira/software" ->
  startsWith "/jira/software" route = false ->
  replace_first (Bos & Lit "/jira/software")%re "" (product ++ route) = route.
Proof.
  intros [-> | ->] H; rewrite replace_first_bos.
  - cbn [run snd fst append]. now rewrite H.
  - destruct route; reflexivity.
Qed.

Lemma nonempty_eqb s : s <> "" -> String.eqb s "" = false.
Proof. now intros H; apply String.eqb_neq. Qed.

Lemma match_browse K :
  K <> "" -> lacks "/" K = true ->
  match_ "/projects/:project/issues/:id" ("/browse/" ++ K) = [] /\
  match_ "/browse/:id" ("/browse/" ++ K) = [("id", K)].
Proof.
  intros HK HKs. unfold match_.
  assert (split "/" ("/browse/" ++ K) = [""; "browse"; K]) as ->.
  { change ("/browse/" ++ K) with ("" ++ String "/" ("browse" ++ String "/" K)).
    rewrite (@split_segment "/" "" _ eq_refl).
    rewrite (@split_segment "/" "browse" _ eq_refl).
    now rewrite split_lacks. }
  simpl. now rewrite nonempty_eqb.
Qed.

Lemma match_issues P K :
  P <> "" -> lacks "/" P = true -> K <> "" -> lacks "/" K = true ->
  match_ "/projects/:project/issues/:id" ("/projects/" ++ P ++ "/issues/" ++ K)
  = [("project", P); ("id", K)].
Proof.
  intros HP HPs HK HKs. unfold match_.
  assert (split "/" ("/projects/" ++ P ++ "/issues/" ++ K)
          = [""; "projects"; P; "issues"; K]) as ->.
  { change ("/projects/" ++ P ++ "/issues/" ++ K)
      with ("" ++ String "/" ("projects" ++ String "/"
              (P ++ String "/" ("issues" ++ String "/" K)))).
    rewrite (@split_segment "/" "" _ eq_refl).
    rewrite (@split_segment "/" "projects" _ eq_refl).
    rewrite (@split_segment "/" P _ HPs).
    rewrite (@split_segment "/" "issues" _ eq_refl).
    now rewrite split_lacks. }
  simpl. now rewrite !nonempty_eqb.
Qed.

Lemma truthy_nonempty s : s <> "" -> truthy (Some s) = true.
Proof. intros H. simpl. now rewrite nonempty_eqb. Qed.

(** The identifier of an issue view, for the prefix that the path has. *)
Lemma getSelectedIssueId_browse url mount product K :
  pathname url = mount ++ product ++ "/browse/" ++ K ->
  product = "" \/ product = "/jira/software" ->
  K <> "" -> lacks "/" K = true ->
  has (searchParams url) "selectedIssue" = false ->
  getSelectedIssueId url mount = Some K.
Proof.
  intros E Hproduct HK HKs Hhas.
  rewrite getSelectedIssueId_path by assumption. simpl.
  rewrite E, substr_app, strip_product by auto.
  destruct (match_browse HK HKs) as [-> ->]. simpl.
  now rewrite nonempty_eqb.
Qed.

(** The identifier of an issue of a project, for the prefix that the path
    has. *)
Lemma getSelectedIssueId_issues url mount product P K :
  pathname url = mount ++ product ++ "/projects/" ++ P ++ "/issues/" ++ K ->
  product = "" \/ product = "/jira/software" ->
  P <> "" -> lacks "/" P = true -> K <> "" -> lacks "/" K = true ->
  has (searchParams url) "selectedIssue" = false ->
  getSelectedIssueId url mount = Some K.
Proof.
  intros E Hproduct HP HPs HK HKs Hhas.
  rewrite getSelectedIssueId_path by assumption. simpl.
  rewrite E, substr_app, strip_product by auto.
  rewrite match_issues by assumption. simpl.
  now rewrite nonempty_eqb.
Qed.

End SelectedIssue.

(** ** The adapter *)

Import URLSearchParams Scenarios.

(** C1, as the code has it: a [selectedIssue] parameter that is present with
    the empty string as its value is returned as it is.  The identifier is
    the empty string for every prefix and every path, also on a path that
    is the route of an issue view: the path is not looked at. *)
Theorem empty_selectedIssue_short_circuits (url : URL) (prefix : string) :
  get (searchParams url) "selectedIssue" = Some "" ->
  getSelectedIssueId url prefix = Some "".
Proof.
  intros H. unfold getSelectedIssueId.
  assert (has (searchParams url) "selectedIssue" = true) as ->
    by (apply has_get; now exists "").
  exact H.
Qed.

Lemma empty_selectedIssue_short_circuits_witness :
  get (searchParams issue_view_empty_parameter) "selectedIssue" = Some "" /\
  getSelectedIssueId issue_view_empty_parameter "" = Some "".
Proof.
  split; [reflexivity|].
  apply (@empty_selectedIssue_short_circuits issue_view_empty_parameter "").
  reflexivity.
Defined.

(** C1 as it is written fails: on [/browse/ACME-42?selectedIssue=] the
    parameter is present and empty, the path is the route of an issue view,
    and the identifier is the empty string, not the key of the path. *)
Lemma empty_selectedIssue_does_not_fall_through :
  get (searchParams issue_view_empty_parameter) "selectedIssue" = Some "" /\
  pathname issue_view_empty_parameter = "/browse/" ++ "ACME-42" /\
  getSelectedIssueId issue_view_empty_parameter
    (getPathPrefix issue_view_empty_parameter) = Some "" /\
  getSelectedIssueId issue_view_empty_parameter
    (getPathPrefix issue_view_empty_parameter) <> Some "ACME-42".
Proof. repeat split; try reflexivity. vm_compute. discriminate. Qed.

(** C2, as the code has it: when the page is applicable and the identifier
    is not empty, [scan] is one GET to
    [https://{host}{prefix}/rest/api/3/issue/{id}], with the scheme https
    whatever the scheme of the page, and its result is the mapped ticket. *)
Theorem scan_request_target (converter : Converter) (url : URL)
  (document : Document) (id : string) :
  isJiraPage url document = true ->
  getSelectedIssueId url (getPathPrefix url) = Some id ->
  id <> "" ->
  scan url document =
    Get ("https://" ++ host url ++ getPathPrefix url ++ "/rest/api/3/issue/" ++ id)
      (fun response => Resolve [extractTicketInfo response (host url)]) /\
  forall net,
    requests net (scan url document) =
    ["https://" ++ host url ++ getPathPrefix url ++ "/rest/api/3/issue/" ++ id].
Proof.
  intros Hpage Hid Hne.
  assert (scan url document =
          Get ("https://" ++ host url ++ getPathPrefix url
               ++ "/rest/api/3/issue/" ++ id)
            (fun response => Resolve [extractTicketInfo response (host url)]))
    as E.
  { unfold scan. rewrite Hpage, Hid, truthy_nonempty by assumption.
    unfold client. simpl. f_equal.
    now rewrite !app_assoc. }
  split; [exact E|]. intros net. rewrite E. simpl.
  now destruct (net _).
Qed.

Lemma scan_request_target_witness :
  isJiraPage self_managed jira_document = true /\
  getSelectedIssueId self_managed (getPathPrefix self_managed) = Some "OPS-3" /\
  "OPS-3" <> "" /\
  requests offline (@scan plain_text self_managed jira_document) =
  ["https://tracker.internal.example/jira/rest/api/3/issue/OPS-3"].
Proof.
  split; [reflexivity|]. split; [reflexivity|]. split; [discriminate|].
  apply (@scan_request_target plain_text self_managed jira_document "OPS-3");
    [reflexivity | reflexivity | discriminate].
Defined.

(** C2 as it is written fails: the page
    [http://tracker.internal.example/jira/browse/OPS-3] of a self-managed
    instance is applicable and its identifier is [OPS-3], and the request
    goes to the https address, not to the address with the scheme of the
    page. *)
Lemma scan_request_ignores_scheme :
  isJiraPage self_managed_http jira_document = true /\
  getSelectedIssueId self_managed_http (getPathPrefix self_managed_http)
  = Some "OPS-3" /\
  requests offline (@scan plain_text self_managed_http jira_document) =
  ["https://tracker.internal.example/jira/rest/api/3/issue/OPS-3"] /\
  requests offline (@scan plain_text self_managed_http jira_document) <>
  [scheme self_managed_http ++ "://" ++ host self_managed_http
   ++ getPathPrefix self_managed_http ++ "/rest/api/3/issue/" ++ "OPS-3"].
Proof. repeat split; try reflexivity. vm_compute. discriminate. Qed.

(** C3, as the code has it: on a path [mount/browse/KEY] or
    [mount/jira/software/browse/KEY] without a [selectedIssue] parameter,
    the prefix is [mount] (the product segment is not part of it) and the
    identifier is [KEY]; this where no route of a board
    ([/projects/<P>/boards/]) occurs in the path and where [mount], when
    the route follows it at once, does not end in the product segment
    ([/jira/software], or that and a segment of one character). *)
Theorem browse_route_prefix_and_id (url : URL) (mount product key : string) :
  pathname url = mount ++ product ++ "/browse/" ++ key ->
  product = "" \/ product = "/jira/software" ->
  key <> "" -> lacks "/" key = true ->
  has (searchParams url) "selectedIssue" = false ->
  (product = "" -> test productSegment mount = false) ->
  test boardsRoute (pathname url) = false ->
  getPathPrefix url = mount /\
  getSelectedIssueId url (getPathPrefix url) = Some key.
Proof.
  intros E Hproduct Hkey Hslash Hhas Hmount Hboards.
  assert (getPathPrefix url = mount) as -> by eauto using getPathPrefix_browse.
  split; [reflexivity|]. eauto using getSelectedIssueId_browse.
Qed.

Lemma browse_route_prefix_and_id_witness :
  pathname self_managed = "/jira" ++ "" ++ "/browse/" ++ "OPS-3" /\
  lacks "/" "OPS-3" = true /\
  has (searchParams self_managed) "selectedIssue" = false /\
  test productSegment "/jira" = false /\
  test boardsRoute (pathname self_managed) = false /\
  getPathPrefix self_managed = "/jira" /\
  getSelectedIssueId self_managed (getPathPrefix self_managed) = Some "OPS-3".
Proof.
  do 5 (split; [reflexivity|]).
  apply (@browse_route_prefix_and_id self_managed "/jira" "" "OPS-3");
    solve [reflexivity | discriminate | now left].
Defined.

(** C3 as it is written fails: on [/jira/software/browse/ACME-42] the part
    of the path before [/browse/ACME-42] is [/jira/software], and the
    prefix is empty. *)
Lemma product_segment_is_not_prefix :
  pathname product_issue_view = "/jira/software" ++ "/browse/" ++ "ACME-42" /\
  has (searchParams product_issue_view) "selectedIssue" = false /\
  getPathPrefix product_issue_view = "" /\
  getPathPrefix product_issue_view <> "/jira/software".
Proof. repeat split; try reflexivity. vm_compute. discriminate. Qed.

(** C4: the [url] of a mapped ticket is [https://<host>/browse/<id>], with
    the host of the page and the key of the record; so it is for the ticket
    that [scan] resolves with, whatever the prefix and the shape of the URL
    of the page. *)
Theorem canonical_url (converter : Converter) :
  (forall (info : JiraTicketInfo) (host : string),
     ticket_url (extractTicketInfo info host)
     = "https://" ++ host ++ "/browse/" ++ key info) /\
  (forall (url : URL) (document : Document) net tickets,
     settle net (scan url document) = Some tickets ->
     forall ticket, In ticket tickets ->
       ticket_url ticket = "https://" ++ host url ++ "/browse/" ++ ticket_id ticket /\
       exists target info, net target = Some info /\ ticket_id ticket = key info).
Proof.
  split; [reflexivity|].
  intros url document net tickets. unfold scan.
  assert (settle net (Resolve []) = Some tickets ->
          forall ticket : TicketData, In ticket tickets -> False) as Hnone.
  { intros H. injection H as <-. intros ticket []. }
  destruct (isJiraPage url document); cbn [negb];
    [|intros H ticket Hin; destruct (Hnone H ticket Hin)].
  destruct (getSelectedIssueId url (getPathPrefix url)) as [id|];
    [|intros H ticket Hin; destruct (Hnone H ticket Hin)].
  destruct (truthy (Some id)); cbn [negb];
    [|intros H ticket Hin; destruct (Hnone H ticket Hin)].
  unfold client. cbn [bind settle].
  destruct (net _) as [info|] eqn:E; [|discriminate].
  intros H. injection H as <-. intros ticket [<- | []].
  split; [reflexivity|]. eauto.
Qed.

Lemma canonical_url_witness :
  settle acme_net (@scan plain_text issue_view plain_document)
  = Some [extractTicketInfo acme_42 "acme.atlassian.net"] /\
  ticket_url (extractTicketInfo acme_42 "acme.atlassian.net")
  = "https://acme.atlassian.net/browse/ACME-42".
Proof.
  split; [reflexivity|].
  apply (proj2 (canonical_url plain_text) issue_view plain_document acme_net
           [extractTicketInfo acme_42 "acme.atlassian.net"] eq_refl
           (extractTicketInfo acme_42 "acme.atlassian.net")).
  now left.
Defined.

(** C5: on a URL with a [selectedIssue] parameter the identifier is the
    value of the parameter as it is, for every path and every prefix. *)
Theorem selectedIssue_takes_precedence (url : URL) (prefix : string) :
  has (searchParams url) "selectedIssue" = true ->
  exists value,
    get (searchParams url) "selectedIssue" = Some value /\
    getSelectedIssueId url prefix = Some value.
Proof.
  intros H. destruct (proj1 (has_get _ _) H) as (value & E).
  exists value. split; [exact E|].
  unfold getSelectedIssueId. now rewrite H.
Qed.

Lemma selectedIssue_takes_precedence_witness :
  has (searchParams board) "selectedIssue" = true /\
  exists value,
    get (searchParams board) "selectedIssue" = Some value /\
    getSelectedIssueId board (getPathPrefix board) = Some value.
Proof.
  split; [reflexivity|].
  apply (@selectedIssue_takes_precedence board (getPathPrefix board)).
  reflexivity.
Defined.

(** C6: when the page is not applicable, or no identifier is extracted
    (none, or the empty string), [scan] resolves with the empty list and
    issues no request. *)
Theorem scan_not_applicable (converter : Converter) (url : URL)
  (document : Document) :
  isJiraPage url document = false \/
  truthy (getSelectedIssueId url (getPathPrefix url)) = false ->
  scan url document = Resolve [] /\
  forall net,
    requests net (scan url document) = [] /\
    settle net (scan url document) = Some [].
Proof.
  intros H.
  assert (scan url document = Resolve []) as ->.
  { unfold scan. destruct H as [-> | H]; [reflexivity|].
    destruct (isJiraPage url document); [cbn [negb] | reflexivity].
    destruct (getSelectedIssueId url (getPathPrefix url)); [|reflexivity].
    now rewrite H. }
  auto.
Qed.

Lemma scan_not_applicable_witness :
  isJiraPage elsewhere plain_document = false /\
  @scan plain_text elsewhere plain_document = Resolve [] /\
  requests offline (@scan plain_text elsewhere plain_document) = [].
Proof.
  split; [reflexivity|].
  destruct (@scan_not_applicable plain_text elsewhere plain_document)
    as [E H]; [left; reflexivity|].
  split; [exact E | exact (proj1 (H offline))].
Defined.

(** C7: a record without a description is mapped to a ticket without a
    description, which is not a ticket with the empty string as its
    description; a record with a structured document is mapped to a ticket
    with the markup that the conversion of the document gives. *)
Theorem description_absent_or_converted (converter : Converter)
  (key : string) (issuetype : IssueType) (summary host : string) :
  let record description :=
    {| key := key;
       fields := {| issuetype := issuetype; summary := summary;
                    description := description |} |} in
  ticket_description (extractTicketInfo (record None) host) = None /\
  ticket_description (extractTicketInfo (record None) host) <> Some "" /\
  forall document : ADF,
    ticket_description (extractTicketInfo (record (Some document)) host)
    = Some (toMarkdown (fromADF document)).
Proof. simpl. repeat split. discriminate. Qed.

(** C8: a page is a page of Jira exactly when the host of its URL ends in
    [.atlassian.net] or the body of its document has the id [jira]. *)
Theorem isJiraPage_iff (url : URL) (document : Document) :
  isJiraPage url document = true <->
  (exists subdomain, host url = subdomain ++ ".atlassian.net") \/
  id (body document) = "jira".
Proof.
  unfold isJiraPage. rewrite <- endsWith_iff, <- String.eqb_eq.
  destruct (endsWith (host url) ".atlassian.net"),
    (String.eqb (id (body document)) "jira"); intuition discriminate.
Qed.

(** C9: without a [selectedIssue] parameter the identifier is the [id] that
    the first of the templates [/projects/:project/issues/:id] and
    [/browse/:id], in this order, captures from the path (the pathname
    without the prefix and without the product segment); on a path
    [/projects/<P>/issues/<KEY>] it is [KEY]. *)
Theorem route_templates_in_order (url : URL) (prefix : string) :
  has (searchParams url) "selectedIssue" = false ->
  let path := replace_first (Bos & Lit "/jira/software")%re ""
                (substr (String.length prefix) (pathname url)) in
  let first := prop "id" (match_ "/projects/:project/issues/:id" path) in
  let second := prop "id" (match_ "/browse/:id" path) in
  getSelectedIssueId url prefix =
    (if truthy first then first else if truthy second then second else None) /\
  forall product P K,
    pathname url = prefix ++ product ++ "/projects/" ++ P ++ "/issues/" ++ K ->
    product = "" \/ product = "/jira/software" ->
    P <> "" -> lacks "/" P = true -> K <> "" -> lacks "/" K = true ->
    path = "/projects/" ++ P ++ "/issues/" ++ K /\
    first = Some K /\
    getSelectedIssueId url prefix = Some K /\
    (prefix = "" -> getSelectedIssueId url (getPathPrefix url) = Some K).
Proof.
  intros Hhas path first second. split.
  - rewrite getSelectedIssueId_path by assumption. reflexivity.
  - intros product P K E Hproduct HP HPs HK HKs.
    assert (path = "/projects/" ++ P ++ "/issues/" ++ K) as Hpath.
    { unfold path. rewrite E, substr_app. now apply strip_product. }
    split; [exact Hpath|]. split.
    { unfold first. rewrite Hpath, match_issues by assumption.
      reflexivity. }
    split; [eauto using getSelectedIssueId_issues|].
    intros ->. simpl in E.
    rewrite (@getPathPrefix_route url product
               ("/projects/" ++ P ++ "/issues/" ++ K)); eauto 10.
    apply getSelectedIssueId_issues with (product := product) (P := P); auto.
Qed.

Lemma route_templates_in_order_witness :
  has (searchParams project_issue) "selectedIssue" = false /\
  getSelectedIssueId project_issue "" = Some "ACME-42".
Proof.
  split; [reflexivity|].
  apply (proj2 (@route_templates_in_order project_issue "" eq_refl)
           "" "ACME" "ACME-42");
    solve [reflexivity | discriminate | now left].
Defined.

(** C10: on an applicable page with a [selectedIssue] parameter that has
    the empty string as its value, [scan] resolves with the empty list and
    issues no request, whatever the path. *)
Theorem scan_empty_selectedIssue (converter : Converter) (url : URL)
  (document : Document) :
  isJiraPage url document = true ->
  get (searchParams url) "selectedIssue" = Some "" ->
  scan url document = Resolve [] /\
  forall net, requests net (scan url document) = [].
Proof.
  intros Hpage Hget.
  assert (scan url document = Resolve []) as ->; [|auto].
  unfold scan, getSelectedIssueId. rewrite Hpage.
  assert (has (searchParams url) "selectedIssue" = true) as ->
    by (apply has_get; now exists "").
  now rewrite Hget.
Qed.

Lemma scan_empty_selectedIssue_witness :
  isJiraPage issue_view_empty_parameter plain_document = true /\
  get (searchParams issue_view_empty_parameter) "selectedIssue" = Some "" /\
  pathname issue_view_empty_parameter = "/browse/ACME-42" /\
  @scan plain_text issue_view_empty_parameter plain_document = Resolve [] /\
  requests offline
    (@scan plain_text issue_view_empty_parameter plain_document) = [].
Proof.
  do 3 (split; [reflexivity|]).
  destruct (@scan_empty_selectedIssue plain_text issue_view_empty_parameter
              plain_document eq_refl eq_refl) as [E H].
  split; [exact E | exact (H offline)].
Defined.

(** ** The adapter on the pages of the scenarios *)

Example scenario_issue_view :
  getSelectedIssueId issue_view (getPathPrefix issue_view) = Some "ACME-42" /\
  settle acme_net (@scan plain_text issue_view plain_document) =
  Some [{| ticket_type := "bug"; ticket_id := "ACME-42";
           ticket_title := "Login fails"; ticket_description := None;
           ticket_url := "https://acme.atlassian.net/browse/ACME-42" |}].
Proof. split; reflexivity. Qed.

Example scenario_board :
  getSelectedIssueId board (getPathPrefix board) = Some "ACME-7".
Proof. reflexivity. Qed.

Example scenario_self_managed :
  isJiraPage self_managed jira_document = true /\
  getPathPrefix self_managed = "/jira" /\
  getSelectedIssueId self_managed (getPathPrefix self_managed) = Some "OPS-3" /\
  requests offline (@scan plain_text self_managed jira_document) =
  ["https://tracker.internal.example/jira/rest/api/3/issue/OPS-3"] /\
  settle offline (@scan plain_text self_managed jira_document) = None.
Proof. repeat split. Qed.

Example scenario_elsewhere :
  isJiraPage elsewhere plain_document = false /\
  @scan plain_text elsewhere plain_document = Resolve [].
Proof. split; reflexivity. Qed.

(** Behind the product segment and a segment of one character, the whole
    path is taken for the route, and no template captures an identifier
    from what is left of it. *)
Example classic_issue_view_has_no_identifier :
  getPathPrefix classic_issue_view = "" /\
  getSelectedIssueId classic_issue_view (getPathPrefix classic_issue_view)
  = None.
Proof. split; reflexivity. Qed.

(** Where the route of a board starts in the path, the path is cut there,
    and no template captures an identifier from what is left of it. *)
Example board_issue_view_has_no_identifier :
  getPathPrefix board_issue_view = "" /\
  getSelectedIssueId board_issue_view (getPathPrefix board_issue_view) = None.
Proof. split; reflexivity. Qed.

Import Pages.

(** ** What the pattern of the routes matches *)

Section PathSuffixesLanguage.

Lemma matches_lit i l t : matches (Lit l) (i, l ++ t) (i + String.length l, t).
Proof. simpl. auto. Qed.

Lemma matches_plus cs i m t :
  m <> "" -> all_mem cs m = true ->
  matches (Plus cs) (i, m ++ t) (i + String.length m, t).
Proof. intros Hm Hcs. exists m. simpl. auto. Qed.

Lemma matches_star cs i m t :
  all_mem cs m = true -> matches (Star cs) (i, m ++ t) (i + String.length m, t).
Proof. intros Hcs. exists m. simpl. auto. Qed.

Lemma matches_class cs i a t :
  mem cs a = true -> matches (Class cs) (i, String a t) (S i, t).
Proof. intros Hcs. exists a. simpl. auto. Qed.

Lemma matches_seq r1 r2 c m c' :
  matches r1 c m -> matches r2 m c' -> matches (r1 & r2)%re c c'.
Proof. intros H1 H2. exists m. auto. Qed.

Lemma matches_eos i : matches Eos (i, "") (i, "").
Proof. simpl. auto. Qed.

(** The optional product segment of [pathSuffixes]. *)
Lemma product_matches i product t :
  product = "" \/ product = "jira/software/" \/
  (exists a, a <> "/"%char /\ product = "jira/software/" ++ String a "/") ->
  matches (Opt (Lit "jira/software/" & Opt (Class (NoneOf "/") & Lit "/")))%re
    (i, product ++ t) (i + String.length product, t).
Proof.
  intros [-> | [-> | (a & Ha & ->)]].
  - right. simpl. now rewrite Nat.add_0_r.
  - left. eapply matches_seq; [apply matches_lit|]. now right.
  - left. eapply matches_seq; [apply (@matches_lit i "jira/software/")|].
    left. eapply matches_seq.
    + apply matches_class. simpl. apply negb_true_iff. now apply Ascii.eqb_neq.
    + simpl. split; [reflexivity | lia].
Qed.

Lemma product_matches_inv c c' :
  matches (Opt (Lit "jira/software/" & Opt (Class (NoneOf "/") & Lit "/")))%re
    c c' ->
  exists product,
    snd c = product ++ snd c' /\
    (product = "" \/ product = "jira/software/" \/
     (exists a, a <> "/"%char /\ product = "jira/software/" ++ String a "/")).
Proof.
  destruct c as [i s], c' as [j t].
  intros [([j1 t1] & [H1 _] & [([j2 t2] & (a & Ha & Hna & _) & Hs & _) | Heq])
         | Heq]; simpl in *.
  - exists ("jira/software/" ++ String a "/"). subst. split; [reflexivity|].
    right; right. exists a. split; [|reflexivity].
    now apply Ascii.eqb_neq, negb_true_iff.
  - injection Heq as _ ->. exists "jira/software/". auto.
  - injection Heq as _ ->. exists "". auto.
Qed.

(** The four routes of [pathSuffixes]. *)
Lemma routes_matches i route t :
  (exists K, K <> "" /\ lacks "/" K = true /\ route = "browse/" ++ K) \/
  (exists P K, P <> "" /\ lacks "/" P = true /\ K <> "" /\
               lacks "/" K = true /\
               route = "projects/" ++ P ++ "/issues/" ++ K) \/
  (exists P R, P <> "" /\ lacks "/" P = true /\ all_mem Dot R = true /\
               route = "projects/" ++ P ++ "/boards/" ++ R) \/
  (exists a, mem Dot a = true /\ route = "secure/RapidBoard" ++ String a "jspa") ->
  exists j,
    matches ((Lit "browse/" & Plus (NoneOf "/")) |.
             (Lit "projects/" & Plus (NoneOf "/") & Lit "/issues/" &
              Plus (NoneOf "/")) |.
             (Lit "projects/" & Plus (NoneOf "/") & Lit "/boards/" & Star Dot) |.
             (Lit "secure/RapidBoard" & Class Dot & Lit "jspa"))%re
      (i, route ++ t) (j, t).
Proof.
  intros [(K & HK & HKs & ->) | [(P & K & HP & HPs & HK & HKs & ->)
         | [(P & R & HP & HPs & HR & ->) | (a & Ha & ->)]]];
    rewrite <- ?all_mem_NoneOf in *; rewrite ?app_assoc; eexists.
  - left. eapply matches_seq; [apply (@matches_lit i "browse/")|].
    now apply matches_plus.
  - right; left.
    eapply matches_seq; [apply (@matches_lit i "projects/")|].
    eapply matches_seq; [now apply matches_plus|].
    eapply matches_seq; [apply (@matches_lit _ "/issues/")|].
    now apply matches_plus.
  - right; right; left.
    eapply matches_seq; [apply (@matches_lit i "projects/")|].
    eapply matches_seq; [now apply matches_plus|].
    eapply matches_seq; [apply (@matches_lit _ "/boards/")|].
    now apply matches_star.
  - right; right; right.
    eapply matches_seq; [apply (@matches_lit i "secure/RapidBoard")|].
    eapply matches_seq; [now apply matches_class|].
    apply (@matches_lit _ "jspa").
Qed.

Lemma routes_matches_inv c c' :
  matches ((Lit "browse/" & Plus (NoneOf "/")) |.
           (Lit "projects/" & Plus (NoneOf "/") & Lit "/issues/" &
            Plus (NoneOf "/")) |.
           (Lit "projects/" & Plus (NoneOf "/") & Lit "/boards/" & Star Dot) |.
           (Lit "secure/RapidBoard" & Class Dot & Lit "jspa"))%re c c' ->
  exists route,
    snd c = route ++ snd c' /\
    ((exists K, K <> "" /\ lacks "/" K = true /\ route = "browse/" ++ K) \/
     (exists P K, P <> "" /\ lacks "/" P = true /\ K <> "" /\
                  lacks "/" K = true /\
                  route = "projects/" ++ P ++ "/issues/" ++ K) \/
     (exists P R, P <> "" /\ lacks "/" P = true /\ all_mem Dot R = true /\
                  route = "projects/" ++ P ++ "/boards/" ++ R) \/
     (exists a, mem Dot a = true /\
                route = "secure/RapidBoard" ++ String a "jspa")).
Proof.
  destruct c as [i s], c' as [j t]. intros [H | [H | [H | H]]].
  - destruct H as ([j1 t1] & [-> _] & K & HK & -> & HKs & _). simpl in *.
    rewrite all_mem_NoneOf in HKs.
    exists ("browse/" ++ K). split; [reflexivity|]. left. eauto.
  - destruct H as ([j1 t1] & [-> _] & [j2 t2] & (P & HP & -> & HPs & _)
                   & [j3 t3] & [-> _] & K & HK & -> & HKs & _).
    simpl in *. rewrite all_mem_NoneOf in HPs, HKs.
    exists ("projects/" ++ P ++ "/issues/" ++ K).
    split; [now rewrite ?app_assoc|]. right; left. exists P, K. auto.
  - destruct H as ([j1 t1] & [-> _] & [j2 t2] & (P & HP & -> & HPs & _)
                   & [j3 t3] & [-> _] & R & -> & HR & _).
    simpl in *. rewrite all_mem_NoneOf in HPs.
    exists ("projects/" ++ P ++ "/boards/" ++ R).
    split; [now rewrite ?app_assoc|]. right; right; left. exists P, R. auto.
  - destruct H as ([j1 t1] & [-> _] & [j2 t2] & (a & -> & Ha & _) & [-> _]).
    simpl in *. exists ("secure/RapidBoard" ++ String a "jspa").
    split; [reflexivity|]. right; right; right. eauto.
Qed.

(** The shape of what [pathSuffixes] matches. *)
Lemma pathSuffixes_shape i s :
  run pathSuffixes (i, s) <> [] ->
  exists product route,
    s = "/" ++ product ++ route /\
    (product = "" \/ product = "jira/software/" \/
     (exists a, a <> "/"%char /\ product = "jira/software/" ++ String a "/")) /\
    ((exists K, K <> "" /\ lacks "/" K = true /\ route = "browse/" ++ K) \/
     (exists P K, P <> "" /\ lacks "/" P = true /\ K <> "" /\
                  lacks "/" K = true /\
                  route = "projects/" ++ P ++ "/issues/" ++ K) \/
     (exists P R, P <> "" /\ lacks "/" P = true /\ all_mem Dot R = true /\
                  route = "projects/" ++ P ++ "/boards/" ++ R) \/
     (exists a, mem Dot a = true /\
                route = "secure/RapidBoard" ++ String a "jspa")).
Proof.
  intros H. apply run_cons in H as (c' & M). unfold pathSuffixes in M.
  destruct M as ([j1 t1] & [E1 _] & m2 & Hproduct & m3 & Hroute & -> & Hend).
  apply product_matches_inv in Hproduct as (product & E2 & Hproduct).
  apply routes_matches_inv in Hroute as (route & E3 & Hroute).
  simpl in *. exists product, route.
  split; [|auto]. rewrite E1, E2, E3, Hend. now rewrite app_nil_r.
Qed.

(** X1: [pathSuffixes] matches at an index of a path exactly when the rest
    of the path is a slash, then nothing, [jira/software/] or
    [jira/software/<c>/] with one character [c], then one of the routes
    [browse/<KEY>], [projects/<P>/issues/<KEY>], [projects/<P>/boards/...]
    and [secure/RapidBoard.jspa] (its dot any character), up to the end of
    the path; key and project are not empty and have no slash, and what
    follows [boards/] has no line terminator.  Every match ends at the end
    of the path. *)
Theorem pathSuffixes_language (i : nat) (s : string) :
  (run pathSuffixes (i, s) <> [] <->
   exists product route,
     s = "/" ++ product ++ route /\
     (product = "" \/ product = "jira/software/" \/
      (exists a, a <> "/"%char /\ product = "jira/software/" ++ String a "/")) /\
     ((exists K, K <> "" /\ lacks "/" K = true /\ route = "browse/" ++ K) \/
      (exists P K, P <> "" /\ lacks "/" P = true /\ K <> "" /\
                   lacks "/" K = true /\
                   route = "projects/" ++ P ++ "/issues/" ++ K) \/
      (exists P R, P <> "" /\ lacks "/" P = true /\ all_mem Dot R = true /\
                   route = "projects/" ++ P ++ "/boards/" ++ R) \/
      (exists a, mem Dot a = true /\
                 route = "secure/RapidBoard" ++ String a "jspa"))) /\
  (forall c', In c' (run pathSuffixes (i, s)) -> c' = (i + String.length s, "")).
Proof.
  split; [split|].
  - apply pathSuffixes_shape.
  - intros (product & route & -> & Hproduct & Hroute). apply run_cons.
    destruct (routes_matches (i + 1 + String.length product) "" Hroute)
      as [j M].
    rewrite app_nil_r in M. exists (j, ""). unfold pathSuffixes.
    eapply matches_seq; [apply (@matches_lit i "/")|].
    eapply matches_seq; [now apply product_matches|].
    eapply matches_seq; [exact M | apply matches_eos].
  - intros [j t] H. apply run_matches in H.
    pose proof (pathSuffixes_end H) as Ht. simpl in Ht. subst t.
    apply matches_consumes in H as (m & Hm & Hj). simpl in *.
    rewrite app_nil_r in Hm. now subst.
Qed.

Lemma pathSuffixes_language_witness :
  run pathSuffixes (5, "/browse/OPS-3") <> [] /\
  In (18, "") (run pathSuffixes (5, "/browse/OPS-3")).
Proof.
  split.
  - apply (proj1 (pathSuffixes_language 5 "/browse/OPS-3")).
    exists "", "browse/OPS-3". split; [reflexivity|]. split; [now left|].
    left. exists "OPS-3". repeat split. discriminate.
  - destruct (run pathSuffixes (5, "/browse/OPS-3")) as [|c l] eqn:E;
      [discriminate|].
    left. apply (proj2 (pathSuffixes_language 5 "/browse/OPS-3") c).
    rewrite E. now left.
Defined.

End PathSuffixesLanguage.

(** ** Where the path is cut *)

Section Cut.

Variable r : regex.
Hypothesis r_end : forall c c', matches r c c' -> snd c' = "".
Hypothesis r_nonempty : forall c c', matches r c c' -> snd c <> "".

(** The subject is cut at the leftmost index at which the pattern
    matches. *)
Lemma replace_cut s : forall i,
  exists rest,
    s = replace_from r "" 0 i s ++ rest /\
    (rest <> "" ->
     run r (i + String.length (replace_from r "" 0 i s), rest) <> []) /\
    (forall u1 u2, replace_from r "" 0 i s = u1 ++ u2 -> u2 <> "" ->
                   run r (i + String.length u1, u2 ++ rest) = []).
Proof.
  induction s as [|a s IH]; intros i.
  - exists "". simpl. destruct (run r (i, "")) as [|[j t] l]; simpl.
    + repeat split; [congruence|]. intros [|b u1] [|c u2]; simpl; congruence.
    + repeat split; [congruence|]. intros [|b u1] [|c u2]; simpl; congruence.
  - destruct (run r (i, String a s)) as [|c l] eqn:E.
    + destruct (IH (S i)) as (rest & Hs & Hrest & Hnone).
      exists rest. simpl. rewrite E. simpl. split; [now rewrite <- Hs|].
      split.
      * intros H. rewrite Nat.add_succ_r. auto.
      * intros [|b u1] u2 Hu Hu2; simpl in Hu.
        -- subst u2. simpl. now rewrite Nat.add_0_r, <- Hs.
        -- injection Hu as -> Hu. simpl. rewrite Nat.add_succ_r.
           exact (Hnone u1 u2 Hu Hu2).
    + assert (replace_from r "" 0 i (String a s) = "") as ->
        by (apply replace_match; [assumption..|congruence]).
      exists (String a s). simpl. rewrite Nat.add_0_r.
      repeat split; [congruence|].
      intros [|b u1] [|c' u2]; simpl; congruence.
Qed.

Lemma test_from_false_iff s : forall i,
  test_from r i s = false <-> replace_from r "" 0 i s = s.
Proof.
  induction s as [|a s IH]; intros i; simpl.
  - destruct (run r (i, "")) as [|c l] eqn:E; [tauto|].
    exfalso. apply (@r_nonempty (i, "") c); [|reflexivity].
    apply run_matches. rewrite E. now left.
  - destruct (run r (i, String a s)) as [|[j t] l] eqn:E.
    + rewrite IH. split; [now intros -> | now intros [= ->]].
    + assert (replace_from r "" 0 i (String a s) = "") as H
        by (apply replace_match; [assumption..|congruence]).
      simpl in H. rewrite E in H. rewrite H. split; discriminate.
Qed.

End Cut.

(* [H] says so up to the bracketing of the appends. *)
Ltac regroup H :=
  rewrite ?app_assoc; simpl; rewrite ?app_assoc; simpl; exact H.

(* Two strings with different tails of one length are different. *)
Ltac tails H :=
  apply app_eq_length_r in H as [_ H]; [discriminate | reflexivity].

Section PathPrefix.

Lemma getPathPrefix_cut (url : URL) :
  exists rest,
    pathname url = getPathPrefix url ++ rest /\
    (rest <> "" ->
     run pathSuffixes (String.length (getPathPrefix url), rest) <> []) /\
    (forall u1 u2, getPathPrefix url = u1 ++ u2 -> u2 <> "" ->
                   run pathSuffixes (String.length u1, u2 ++ rest) = []).
Proof.
  exact (@replace_cut pathSuffixes pathSuffixes_end pathSuffixes_nonempty
           (pathname url) 0).
Qed.

(** X2: the prefix is the path up to the leftmost index at which
    [pathSuffixes] matches: the path is the prefix and a rest, the rest is
    empty or matched by the pattern, and the pattern matches at no index
    inside the prefix. *)
Theorem getPathPrefix_leftmost (url : URL) :
  exists rest,
    pathname url = getPathPrefix url ++ rest /\
    (rest <> "" ->
     run pathSuffixes (String.length (getPathPrefix url), rest) <> []) /\
    (forall u1 u2, getPathPrefix url = u1 ++ u2 -> u2 <> "" ->
                   run pathSuffixes (String.length u1, u2 ++ rest) = []).
Proof. exact (getPathPrefix_cut url). Qed.

Lemma getPathPrefix_leftmost_witness :
  exists rest,
    pathname self_managed = getPathPrefix self_managed ++ rest /\
    (rest <> "" ->
     run pathSuffixes (String.length (getPathPrefix self_managed), rest) <> []) /\
    (forall u1 u2, getPathPrefix self_managed = u1 ++ u2 -> u2 <> "" ->
                   run pathSuffixes (String.length u1, u2 ++ rest) = []).
Proof. exact (getPathPrefix_leftmost self_managed). Defined.

(** X3: the prefix is the whole path exactly when [pathSuffixes] matches
    nowhere in the path. *)
Theorem getPathPrefix_whole_path_iff (url : URL) :
  getPathPrefix url = pathname url <-> test pathSuffixes (pathname url) = false.
Proof.
  symmetry.
  exact (@test_from_false_iff pathSuffixes pathSuffixes_end
           pathSuffixes_nonempty (pathname url) 0).
Qed.

(** X4: the prefix is empty exactly when the path is empty or the whole
    path is matched by [pathSuffixes]. *)
Theorem getPathPrefix_empty_iff (url : URL) :
  getPathPrefix url = "" <->
  pathname url = "" \/ run pathSuffixes (0, pathname url) <> [].
Proof.
  split.
  - intros E. destruct (getPathPrefix_cut url) as (rest & Hp & Hrest & _).
    rewrite E in Hp, Hrest. simpl in Hp, Hrest. subst rest.
    destruct (pathname url) as [|a p]; [now left | right].
    apply Hrest. discriminate.
  - unfold getPathPrefix, replace_all. intros [-> | H].
    + simpl. now destruct (run pathSuffixes (0, "")) as [|[j t] l].
    + now apply replace_match;
        [exact pathSuffixes_end | exact pathSuffixes_nonempty |].
Qed.

(** X5: when the path ends in something that [pathSuffixes] matches, the
    prefix lies within what comes before it: nothing of a route that ends
    the path is left in the prefix. *)
Theorem getPathPrefix_within (url : URL) (mount route : string) :
  pathname url = mount ++ route ->
  run pathSuffixes (String.length mount, route) <> [] ->
  exists tail, mount = getPathPrefix url ++ tail.
Proof.
  intros E Hroute.
  destruct (getPathPrefix_cut url) as (rest & Hp & _ & Hnone).
  rewrite E in Hp.
  destruct (Nat.le_gt_cases (String.length (getPathPrefix url))
              (String.length mount)) as [L | L].
  - symmetry in Hp. apply app_eq_prefix in Hp as (tail & -> & _); eauto.
  - apply app_eq_prefix in Hp as (w & Hw & ->); [|lia].
    destruct w as [|a w].
    + rewrite Hw, app_nil_r in L. lia.
    + specialize (Hnone mount (String a w) Hw). rewrite Hnone in Hroute.
      * congruence.
      * discriminate.
Qed.

Lemma getPathPrefix_within_witness :
  pathname board_issue_view = "/projects/ACME/boards" ++ "/browse/ACME-42" /\
  run pathSuffixes (String.length "/projects/ACME/boards", "/browse/ACME-42")
  <> [] /\
  exists tail, "/projects/ACME/boards" = getPathPrefix board_issue_view ++ tail.
Proof.
  split; [reflexivity|]. split; [discriminate|].
  apply (@getPathPrefix_within board_issue_view "/projects/ACME/boards"
           "/browse/ACME-42"); [reflexivity | discriminate].
Defined.

(** A match that starts inside [u2] and takes the route from its slash on
    would start at the product segment. *)
Lemma product_cases u1 u2 product prod :
  u2 <> "" -> product = "" \/ product = "/jira/software" ->
  prod = "" \/ prod = "jira/software/" \/
  (exists a, a <> "/"%char /\ prod = "jira/software/" ++ String a "/") ->
  (product = "" -> test productSegment (u1 ++ u2) = false) ->
  u2 ++ product ++ "/" <> "/" ++ prod.
Proof.
  intros Hu2 Hproduct Hprod Hps E.
  destruct Hprod as [-> | [-> | (a & Ha & ->)]].
  - destruct u2 as [|b [|c u2]]; [congruence | |discriminate].
    destruct Hproduct as [-> | ->]; discriminate.
  - assert ((u2 ++ product) ++ "/" = "/jira/software" ++ "/") as E2
      by regroup E.
    apply app_inv_tail in E2.
    destruct Hproduct as [-> | ->].
    + rewrite app_nil_r in E2. subst u2.
      apply (@productSegment_found u1 "/jira/software"); auto.
    + change "/jira/software" with ("" ++ "/jira/software") in E2 at 2.
      apply app_inv_tail in E2. congruence.
  - assert ((u2 ++ product) ++ "/" = ("/jira/software/" ++ String a "") ++ "/")
      as E2 by regroup E.
    apply app_inv_tail in E2.
    destruct Hproduct as [-> | ->].
    + rewrite app_nil_r in E2. subst u2.
      apply (@productSegment_found u1 ("/jira/software/" ++ String a ""));
        [|auto].
      right. exists a. split; [now apply Ascii.eqb_neq | reflexivity].
    + destruct u2 as [|x [|y [|z u2]]]; simpl in E2; try discriminate.
      apply (f_equal String.length) in E2. simpl in E2.
      rewrite length_app in E2. simpl in E2. lia.
Qed.

(** No match of [pathSuffixes] starts before the route of an issue of a
    project. *)
Lemma issues_no_earlier i u1 u2 product P K :
  u2 <> "" -> product = "" \/ product = "/jira/software" ->
  lacks "/" P = true -> lacks "/" K = true ->
  (product = "" -> test productSegment (u1 ++ u2) = false) ->
  test boardsRoute (u1 ++ u2 ++ product ++ "/projects/" ++ P ++ "/issues/" ++ K)
  = false ->
  run pathSuffixes (i, u2 ++ product ++ "/projects/" ++ P ++ "/issues/" ++ K)
  = [].
Proof.
  intros Hu2 Hproduct HP HK Hps Hbr.
  destruct (run pathSuffixes _) as [|c l] eqn:Hrun; [reflexivity | exfalso].
  assert (run pathSuffixes
            (i, u2 ++ product ++ "/projects/" ++ P ++ "/issues/" ++ K) <> [])
    as M by congruence.
  clear Hrun. apply pathSuffixes_shape in M as (prod & route & E & Hprod & Hroute).
  destruct Hroute as [(K' & _ & HK' & ->) | [(P' & K' & _ & HP' & _ & HK' & ->)
                      | [(P' & R & HP' & HPs' & _ & ->) | (a & _ & ->)]]].
  - assert ((u2 ++ product ++ "/projects/" ++ P ++ "/issues") ++ String "/" K =
            ("/" ++ prod ++ "browse") ++ String "/" K') as E1 by regroup E.
    apply last_segment in E1 as [E1 _]; [|assumption..].
    assert ((u2 ++ product ++ "/projects/" ++ P ++ "/") ++ "issues" =
            ("/" ++ prod) ++ "browse") as E2 by regroup E1.
    tails E2.
  - assert ((u2 ++ product ++ "/projects/" ++ P ++ "/issues") ++ String "/" K =
            ("/" ++ prod ++ "projects/" ++ P' ++ "/issues") ++ String "/" K')
      as E1 by regroup E.
    apply last_segment in E1 as [E1 _]; [|assumption..].
    assert ((u2 ++ product ++ "/projects" ++ String "/" P) ++ "/issues" =
            ("/" ++ prod ++ "projects" ++ String "/" P') ++ "/issues")
      as E2 by regroup E1.
    apply app_inv_tail in E2.
    assert ((u2 ++ product ++ "/projects") ++ String "/" P =
            ("/" ++ prod ++ "projects") ++ String "/" P') as E3 by regroup E2.
    apply last_segment in E3 as [E3 _]; [|assumption..].
    assert ((u2 ++ product ++ "/") ++ "projects" = ("/" ++ prod) ++ "projects")
      as E4 by regroup E3.
    apply app_inv_tail in E4. revert E4. now apply product_cases with (u1 := u1).
  - assert (exists w,
              u1 ++ u2 ++ product ++ "/projects/" ++ P ++ "/issues/" ++ K =
              w ++ "/projects/" ++ P' ++ "/boards/" ++ R) as (w & Ew).
    { rewrite E.
      destruct Hprod as [-> | [-> | (a & Ha & ->)]].
      - exists u1. reflexivity.
      - exists (u1 ++ "/jira/software"). now rewrite ?app_assoc.
      - exists (u1 ++ "/jira/software/" ++ String a "").
        now rewrite ?app_assoc. }
    rewrite Ew in Hbr. now apply boardsRoute_found in Hbr.
  - destruct (Ascii.eqb a "/") eqn:Ha.
    + apply Ascii.eqb_eq in Ha as ->.
      assert ((u2 ++ product ++ "/projects/" ++ P ++ "/issues") ++ String "/" K
              = ("/" ++ prod ++ "secure/RapidBoard") ++ String "/" "jspa")
        as E1 by regroup E.
      apply last_segment in E1 as [E1 _]; [|assumption|reflexivity].
      assert ((u2 ++ product ++ "/projects/" ++ P) ++ "/issues" =
              ("/" ++ prod ++ "secure/Rap") ++ "idBoard") as E2
        by regroup E1.
      tails E2.
    + assert ((u2 ++ product ++ "/projects/" ++ P ++ "/issues") ++ String "/" K
              = ("/" ++ prod ++ "secure") ++
                String "/" ("RapidBoard" ++ String a "jspa"))
        as E1 by regroup E.
      apply last_segment in E1 as [E1 _];
        [|assumption | simpl; now rewrite Ha].
      assert ((u2 ++ product ++ "/projects/" ++ P ++ "/") ++ "issues" =
              ("/" ++ prod) ++ "secure") as E2 by regroup E1.
      tails E2.
Qed.

(** No match of [pathSuffixes] starts before the route of the boards. *)
Lemma rapidBoard_no_earlier i u1 u2 product :
  u2 <> "" -> product = "" \/ product = "/jira/software" ->
  (product = "" -> test productSegment (u1 ++ u2) = false) ->
  test boardsRoute (u1 ++ u2 ++ product ++ "/secure/RapidBoard.jspa") = false ->
  run pathSuffixes (i, u2 ++ product ++ "/secure/RapidBoard.jspa") = [].
Proof.
  intros Hu2 Hproduct Hps Hbr.
  destruct (run pathSuffixes _) as [|c l] eqn:Hrun; [reflexivity | exfalso].
  assert (run pathSuffixes (i, u2 ++ product ++ "/secure/RapidBoard.jspa")
          <> []) as M by congruence.
  clear Hrun. apply pathSuffixes_shape in M as (prod & route & E & Hprod & Hroute).
  destruct Hroute as [(K' & _ & HK' & ->) | [(P' & K' & _ & HP' & _ & HK' & ->)
                      | [(P' & R & HP' & HPs' & _ & ->) | (a & _ & ->)]]].
  - assert ((u2 ++ product ++ "/secure") ++ String "/" "RapidBoard.jspa" =
            ("/" ++ prod ++ "browse") ++ String "/" K') as E1 by regroup E.
    apply last_segment in E1 as [E1 _]; [|reflexivity|assumption].
    assert ((u2 ++ product ++ "/") ++ "secure" = ("/" ++ prod) ++ "browse")
      as E2 by regroup E1.
    tails E2.
  - assert ((u2 ++ product ++ "/secure") ++ String "/" "RapidBoard.jspa" =
            ("/" ++ prod ++ "projects/" ++ P' ++ "/issues") ++ String "/" K')
      as E1 by regroup E.
    apply last_segment in E1 as [E1 _]; [|reflexivity|assumption].
    assert ((u2 ++ product ++ "/") ++ "secure" =
            ("/" ++ prod ++ "projects/" ++ P' ++ "/") ++ "issues")
      as E2 by regroup E1.
    tails E2.
  - assert (exists w,
              u1 ++ u2 ++ product ++ "/secure/RapidBoard.jspa" =
              w ++ "/projects/" ++ P' ++ "/boards/" ++ R) as (w & Ew).
    { rewrite E.
      destruct Hprod as [-> | [-> | (a & Ha & ->)]].
      - exists u1. reflexivity.
      - exists (u1 ++ "/jira/software"). now rewrite ?app_assoc.
      - exists (u1 ++ "/jira/software/" ++ String a "").
        now rewrite ?app_assoc. }
    rewrite Ew in Hbr. now apply boardsRoute_found in Hbr.
  - assert ((u2 ++ product ++ "/") ++ "secure/RapidBoard.jspa" =
            ("/" ++ prod) ++ ("secure/RapidBoard" ++ String a "jspa"))
      as E1 by regroup E.
    apply app_eq_length_r in E1 as [E1 _]; [|reflexivity].
    revert E1. now apply product_cases with (u1 := u1).
Qed.

(** X6: on a path [mount/projects/P/issues/KEY] or
    [mount/jira/software/projects/P/issues/KEY] without a [selectedIssue]
    parameter the prefix is [mount] and the identifier is [KEY]; this where
    no route of a board occurs in the path and where [mount], when the
    route follows it at once, does not end in the product segment. *)
Theorem issues_route_prefix_and_id (url : URL) (mount product P K : string) :
  pathname url = mount ++ product ++ "/projects/" ++ P ++ "/issues/" ++ K ->
  product = "" \/ product = "/jira/software" ->
  P <> "" -> lacks "/" P = true -> K <> "" -> lacks "/" K = true ->
  has (searchParams url) "selectedIssue" = false ->
  (product = "" -> test productSegment mount = false) ->
  test boardsRoute (pathname url) = false ->
  getPathPrefix url = mount /\
  getSelectedIssueId url (getPathPrefix url) = Some K.
Proof.
  intros E Hproduct HP HPs HK HKs Hhas Hps Hbr.
  assert (getPathPrefix url = mount) as ->.
  { unfold getPathPrefix, replace_all. rewrite E in *.
    apply replace_leftmost.
    - exact pathSuffixes_end.
    - exact pathSuffixes_nonempty.
    - intros u1 u2 -> Hu2. rewrite app_assoc in Hbr.
      now apply issues_no_earlier with (u1 := u1).
    - apply pathSuffixes_issue; [assumption|]. right. exists P, K. auto. }
  split; [reflexivity|]. eauto using getSelectedIssueId_issues.
Qed.

Lemma issues_route_prefix_and_id_witness :
  pathname self_managed_project_issue
  = "/jira" ++ "" ++ "/projects/" ++ "OPS" ++ "/issues/" ++ "OPS-3" /\
  test productSegment "/jira" = false /\
  test boardsRoute (pathname self_managed_project_issue) = false /\
  getPathPrefix self_managed_project_issue = "/jira" /\
  getSelectedIssueId self_managed_project_issue
    (getPathPrefix self_managed_project_issue) = Some "OPS-3".
Proof.
  do 3 (split; [reflexivity|]).
  apply (@issues_route_prefix_and_id self_managed_project_issue
           "/jira" "" "OPS" "OPS-3");
    solve [reflexivity | discriminate | now left].
Defined.

(** The prefix of a path that ends in the route of the boards. *)
Lemma getPathPrefix_rapidBoard url mount product :
  pathname url = mount ++ product ++ "/secure/RapidBoard.jspa" ->
  product = "" \/ product = "/jira/software" ->
  (product = "" -> test productSegment mount = false) ->
  test boardsRoute (pathname url) = false ->
  getPathPrefix url = mount.
Proof.
  intros E Hproduct Hps Hbr.
  unfold getPathPrefix, replace_all. rewrite E in *.
  apply replace_leftmost.
  - exact pathSuffixes_end.
  - exact pathSuffixes_nonempty.
  - intros u1 u2 -> Hu2. rewrite app_assoc in Hbr.
    now apply rapidBoard_no_earlier with (u1 := u1).
  - destruct Hproduct as [-> | ->]; simpl; discriminate.
Qed.

End PathPrefix.

(** ** The scan *)

Section Scan.

Context {converter : Converter}.

(** What [scan] is: nothing to do, or one request. *)
Lemma scan_cases (url : URL) (document : Document) :
  (scan url document = Resolve [] /\
   (isJiraPage url document = false \/
    truthy (getSelectedIssueId url (getPathPrefix url)) = false)) \/
  (exists id,
     isJiraPage url document = true /\
     getSelectedIssueId url (getPathPrefix url) = Some id /\ id <> "" /\
     scan url document =
     Get ("https://" ++ host url ++ getPathPrefix url ++ "/rest/api/3/issue/" ++ id)
       (fun response => Resolve [extractTicketInfo response (host url)])).
Proof.
  unfold scan. destruct (isJiraPage url document); cbn [negb]; [|auto].
  destruct (getSelectedIssueId url (getPathPrefix url)) as [id|]; [|auto].
  destruct (truthy (Some id)) eqn:T; cbn [negb]; [|auto].
  right. exists id. do 2 (split; [reflexivity|]). split.
  - intros ->. discriminate.
  - unfold client. simpl. f_equal. now rewrite !app_assoc.
Qed.

Lemma has_of_get params name :
  has params name = match get params name with Some _ => true | None => false end.
Proof.
  induction params as [|[k v] params IH]; simpl; [reflexivity|].
  now destruct (String.eqb k name).
Qed.

Lemma substr_length s : substr (String.length s) s = "".
Proof. rewrite <- (app_nil_r s) at 2. apply substr_app. Qed.

Lemma find_truthy_nonempty values : find_truthy values <> Some "".
Proof.
  induction values as [|[v|] values IH]; simpl; [discriminate| |exact IH].
  destruct (String.eqb_spec v ""); simpl; [exact IH | congruence].
Qed.

(** X7: on a path [mount/secure/RapidBoard.jspa] or
    [mount/jira/software/secure/RapidBoard.jspa] of an applicable page
    with a non-empty [selectedIssue] parameter, the prefix is [mount] and
    the one request of [scan] goes to
    [https://{host}{mount}/rest/api/3/issue/{selectedIssue}]; this where no
    route of a board ([/projects/<P>/boards/]) occurs in the path and where
    [mount], when the route follows it at once, does not end in the product
    segment. *)
Theorem board_page_prefix_and_request (url : URL) (document : Document)
  (mount product id : string) :
  pathname url = mount ++ product ++ "/secure/RapidBoard.jspa" ->
  product = "" \/ product = "/jira/software" ->
  (product = "" -> test productSegment mount = false) ->
  test boardsRoute (pathname url) = false ->
  isJiraPage url document = true ->
  get (searchParams url) "selectedIssue" = Some id -> id <> "" ->
  getPathPrefix url = mount /\
  forall net,
    requests net (scan url document) =
    ["https://" ++ host url ++ mount ++ "/rest/api/3/issue/" ++ id].
Proof.
  intros E Hproduct Hps Hbr Hpage Hget Hid.
  assert (getPathPrefix url = mount) as Hprefix
    by eauto using getPathPrefix_rapidBoard.
  split; [exact Hprefix|]. intros net.
  destruct (scan_cases url document)
    as [[_ [H | H]] | (id' & _ & Hid' & _ & ->)].
  - congruence.
  - exfalso. revert H. unfold getSelectedIssueId.
    rewrite has_of_get, Hget. simpl.
    destruct (String.eqb_spec id ""); [congruence | discriminate].
  - revert Hid'. unfold getSelectedIssueId. rewrite has_of_get, Hget.
    intros [= <-]. rewrite Hprefix. simpl. now destruct (net _).
Qed.

(** X8: where [pathSuffixes] matches nowhere in the path and there is no
    [selectedIssue] parameter, the prefix is the whole path, no identifier
    is extracted and [scan] resolves with the empty list, on every
    document. *)
Theorem unknown_path_no_identifier (url : URL) (document : Document) :
  test pathSuffixes (pathname url) = false ->
  has (searchParams url) "selectedIssue" = false ->
  getPathPrefix url = pathname url /\
  getSelectedIssueId url (getPathPrefix url) = None /\
  scan url document = Resolve [].
Proof.
  intros Htest Hhas.
  assert (getPathPrefix url = pathname url) as Hprefix.
  { now apply (@test_from_false_iff pathSuffixes pathSuffixes_end
                 pathSuffixes_nonempty (pathname url) 0). }
  assert (getSelectedIssueId url (getPathPrefix url) = None) as Hid.
  { rewrite getSelectedIssueId_path by assumption.
    rewrite Hprefix, substr_length. reflexivity. }
  do 2 (split; [assumption|]).
  destruct (scan_cases url document) as [[H _] | (id & _ & H & _)];
    [exact H | congruence].
Qed.

(** X9: where [pathSuffixes] matches nowhere in the path of an applicable
    page with a non-empty [selectedIssue] parameter, the request of [scan]
    goes to the address under the whole path,
    [https://{host}{pathname}/rest/api/3/issue/{selectedIssue}]. *)
Theorem unknown_path_request (url : URL) (document : Document) (id : string) :
  test pathSuffixes (pathname url) = false ->
  isJiraPage url document = true ->
  get (searchParams url) "selectedIssue" = Some id -> id <> "" ->
  forall net,
    requests net (scan url document) =
    ["https://" ++ host url ++ pathname url ++ "/rest/api/3/issue/" ++ id].
Proof.
  intros Htest Hpage Hget Hid net.
  assert (getPathPrefix url = pathname url) as Hprefix.
  { now apply (@test_from_false_iff pathSuffixes pathSuffixes_end
                 pathSuffixes_nonempty (pathname url) 0). }
  destruct (scan_cases url document)
    as [[_ [H | H]] | (id' & _ & Hid' & _ & ->)].
  - congruence.
  - exfalso. revert H. unfold getSelectedIssueId.
    rewrite has_of_get, Hget. simpl.
    destruct (String.eqb_spec id ""); [congruence | discriminate].
  - revert Hid'. unfold getSelectedIssueId. rewrite has_of_get, Hget.
    intros [= <-]. rewrite Hprefix. simpl. now destruct (net _).
Qed.

(** X10: in every network [scan] issues at most one request, and when it
    resolves, it resolves with as many tickets as it issued requests. *)
Theorem scan_at_most_one (url : URL) (document : Document)
  (net : string -> option JiraTicketInfo) :
  List.length (requests net (scan url document)) <= 1 /\
  forall tickets,
    settle net (scan url document) = Some tickets ->
    List.length tickets = List.length (requests net (scan url document)).
Proof.
  destruct (scan_cases url document) as [[-> _] | (id & _ & _ & _ & ->)];
    simpl.
  - split; [lia|]. now intros tickets [= <-].
  - destruct (net _); simpl; split; try lia; now intros tickets [= <-].
Qed.

(** X11: [scan] issues no request exactly when the page is not applicable
    or no identifier is extracted (none, or the empty string). *)
Theorem scan_no_request_iff (url : URL) (document : Document)
  (net : string -> option JiraTicketInfo) :
  requests net (scan url document) = [] <->
  isJiraPage url document = false \/
  truthy (getSelectedIssueId url (getPathPrefix url)) = false.
Proof.
  destruct (scan_cases url document)
    as [[-> H] | (id & Hpage & Hid & Hne & ->)]; simpl.
  - tauto.
  - rewrite Hpage, Hid, truthy_nonempty by assumption.
    split; [discriminate | intros [H | H]; discriminate].
Qed.


(** X18: on the page of the boards without a [selectedIssue] parameter
    (path and conditions as for X7) no identifier is extracted and [scan]
    resolves with the empty list. *)
Theorem board_page_without_selection (url : URL) (document : Document)
  (mount product : string) :
  pathname url = mount ++ product ++ "/secure/RapidBoard.jspa" ->
  product = "" \/ product = "/jira/software" ->
  (product = "" -> test productSegment mount = false) ->
  test boardsRoute (pathname url) = false ->
  has (searchParams url) "selectedIssue" = false ->
  getSelectedIssueId url (getPathPrefix url) = None /\
  scan url document = Resolve [].
Proof.
  intros E Hproduct Hps Hbr Hhas.
  assert (getSelectedIssueId url (getPathPrefix url) = None) as Hid.
  { rewrite (getPathPrefix_rapidBoard _ _ E) by assumption.
    rewrite getSelectedIssueId_path by assumption. simpl.
    rewrite E, substr_app, strip_product by (assumption || reflexivity).
    reflexivity. }
  split; [exact Hid|].
  destruct (scan_cases url document) as [[H _] | (id & _ & H & _)];
    [exact H | congruence].
Qed.

(** X13: [scan] reads the host and the path of the URL, the first value of
    its [selectedIssue] parameter and the id of the body of the document,
    and nothing else: not the protocol, not the other parameters. *)
Theorem scan_reads (url1 url2 : URL) (document1 document2 : Document) :
  host url1 = host url2 -> pathname url1 = pathname url2 ->
  get (searchParams url1) "selectedIssue"
  = get (searchParams url2) "selectedIssue" ->
  id (body document1) = id (body document2) ->
  scan url1 document1 = scan url2 document2.
Proof.
  intros Hhost Hpath Hget Hid.
  unfold scan, isJiraPage, getPathPrefix, getSelectedIssueId.
  now rewrite !has_of_get, Hhost, Hpath, Hget, Hid.
Qed.

End Scan.

Lemma board_page_prefix_and_request_witness :
  pathname self_managed_board = "/jira" ++ "" ++ "/secure/RapidBoard.jspa" /\
  isJiraPage self_managed_board jira_document = true /\
  get (searchParams self_managed_board) "selectedIssue" = Some "OPS-3" /\
  getPathPrefix self_managed_board = "/jira" /\
  requests offline (@scan plain_text self_managed_board jira_document) =
  ["https://tracker.internal.example/jira/rest/api/3/issue/OPS-3"].
Proof.
  do 3 (split; [reflexivity|]).
  destruct (@board_page_prefix_and_request plain_text self_managed_board
              jira_document "/jira" "" "OPS-3") as [E H];
    try solve [reflexivity | discriminate | now left].
  split; [exact E | exact (H offline)].
Defined.

Lemma board_page_without_selection_witness :
  pathname self_managed_board_unselected
  = "/jira" ++ "" ++ "/secure/RapidBoard.jspa" /\
  has (searchParams self_managed_board_unselected) "selectedIssue" = false /\
  getSelectedIssueId self_managed_board_unselected
    (getPathPrefix self_managed_board_unselected) = None /\
  @scan plain_text self_managed_board_unselected jira_document = Resolve [].
Proof.
  do 2 (split; [reflexivity|]).
  apply (@board_page_without_selection plain_text
           self_managed_board_unselected jira_document "/jira" "");
    solve [reflexivity | now left].
Defined.

Lemma unknown_path_no_identifier_witness :
  test pathSuffixes (pathname dashboard) = false /\
  getPathPrefix dashboard = "/secure/Dashboard.jspa" /\
  getSelectedIssueId dashboard (getPathPrefix dashboard) = None /\
  @scan plain_text dashboard plain_document = Resolve [].
Proof.
  split; [reflexivity|].
  apply (@unknown_path_no_identifier plain_text dashboard plain_document);
    reflexivity.
Defined.

Lemma unknown_path_request_witness :
  test pathSuffixes (pathname dashboard_selected) = false /\
  requests offline (@scan plain_text dashboard_selected plain_document) =
  ["https://acme.atlassian.net/secure/Dashboard.jspa/rest/api/3/issue/ACME-7"].
Proof.
  split; [reflexivity|].
  apply (@unknown_path_request plain_text dashboard_selected plain_document
           "ACME-7"); solve [reflexivity | discriminate].
Defined.

Lemma scan_at_most_one_witness :
  settle acme_net (@scan plain_text issue_view plain_document)
  = Some [extractTicketInfo acme_42 "acme.atlassian.net"] /\
  List.length [extractTicketInfo acme_42 "acme.atlassian.net"] =
  List.length (requests acme_net (@scan plain_text issue_view plain_document)).
Proof.
  split; [reflexivity|].
  apply (proj2 (@scan_at_most_one plain_text issue_view plain_document
                  acme_net)).
  reflexivity.
Defined.

Lemma scan_reads_witness :
  @scan plain_text issue_view plain_document =
  @scan plain_text issue_view_http plain_document.
Proof.
  apply (@scan_reads plain_text issue_view issue_view_http plain_document
           plain_document); reflexivity.
Defined.

(** ** The identifier and the ticket *)

(** X14: the identifier is the empty string exactly when the first
    [selectedIssue] parameter is the empty string; an identifier taken from
    the path is never empty. *)
Theorem empty_identifier_iff (url : URL) (prefix : string) :
  getSelectedIssueId url prefix = Some "" <->
  get (searchParams url) "selectedIssue" = Some "".
Proof.
  unfold getSelectedIssueId. rewrite has_of_get.
  destruct (get (searchParams url) "selectedIssue") as [value|];
    [reflexivity|].
  split; [|discriminate]. intros H. now apply find_truthy_nonempty in H.
Qed.






(** X16: the [url] of a mapped ticket is the address of a page on which the
    adapter finds the ticket again: on the URL with the host, the path
    [/browse/<key>] and no [selectedIssue] parameter, for a key that is not
    empty and has no slash, the prefix is empty, the identifier is the key,
    and the request of [scan], where the page is applicable, is for this
    key. *)
Theorem canonical_url_round_trip (converter : Converter)
  (info : JiraTicketInfo) (page : URL) (document : Document) :
  key info <> "" -> lacks "/" (key info) = true ->
  pathname page = "/browse/" ++ key info ->
  has (searchParams page) "selectedIssue" = false ->
  ticket_url (extractTicketInfo info (host page))
  = "https://" ++ host page ++ pathname page /\
  getPathPrefix page = "" /\
  getSelectedIssueId page (getPathPrefix page) = Some (key info) /\
  (isJiraPage page document = true ->
   forall net,
     requests net (scan page document) =
     ["https://" ++ host page ++ "/rest/api/3/issue/" ++ key info]).
Proof.
  intros Hkey Hslash Hpath Hhas.
  assert (getPathPrefix page = "") as Hprefix.
  { apply getPathPrefix_route with (product := "") (route := pathname page);
      [reflexivity | now left |]. left. now exists (key info). }
  assert (getSelectedIssueId page "" = Some (key info)) as Hid
    by (apply getSelectedIssueId_browse with (product := ""); auto).
  split; [simpl; now rewrite Hpath|].
  split; [exact Hprefix|]. rewrite Hprefix. split; [exact Hid|].
  intros Hpage net.
  destruct (scan_cases page document)
    as [[_ [H | H]] | (id' & _ & Hid' & _ & ->)].
  - congruence.
  - rewrite Hprefix, Hid, truthy_nonempty in H by assumption. discriminate.
  - rewrite Hprefix, Hid in Hid'. injection Hid' as <-.
    rewrite Hprefix. simpl. now destruct (net _).
Qed.

Lemma canonical_url_round_trip_witness :
  pathname issue_view = "/browse/" ++ key acme_42 /\
  ticket_url (extractTicketInfo acme_42 (host issue_view))
  = "https://acme.atlassian.net/browse/ACME-42" /\
  getSelectedIssueId issue_view (getPathPrefix issue_view) = Some "ACME-42".
Proof.
  split; [reflexivity|].
  destruct (@canonical_url_round_trip plain_text acme_42 issue_view
              plain_document) as (E & _ & H & _);
    try solve [reflexivity | discriminate].
  split; [exact E | exact H].
Defined.

(** X17: the [url] of a mapped ticket determines the host and the key:
    records with keys without a slash that are mapped to the same [url]
    have the same key, and were mapped for the same host. *)
Theorem canonical_url_determines (converter : Converter)
  (info1 info2 : JiraTicketInfo) (host1 host2 : string) :
  lacks "/" (key info1) = true -> lacks "/" (key info2) = true ->
  ticket_url (extractTicketInfo info1 host1)
  = ticket_url (extractTicketInfo info2 host2) ->
  host1 = host2 /\ key info1 = key info2.
Proof.
  intros H1 H2 E. simpl in E.
  apply (app_inv_head "https://") in E.
  assert ((host1 ++ "/browse") ++ String "/" (key info1) =
          (host2 ++ "/browse") ++ String "/" (key info2)) as E1
    by regroup E.
  apply last_segment in E1 as [E1 ->]; [|assumption..].
  apply app_inv_tail in E1. auto.
Qed.

Lemma canonical_url_determines_witness :
  ticket_url (extractTicketInfo acme_42 "acme.atlassian.net")
  = ticket_url (extractTicketInfo acme_42 "acme.atlassian.net") /\
  "acme.atlassian.net" = "acme.atlassian.net" /\ key acme_42 = key acme_42.
Proof.
  split; [reflexivity|].
  apply (@canonical_url_determines plain_text acme_42 acme_42
           "acme.atlassian.net" "acme.atlassian.net"); reflexivity.
Defined.
